(** * The ML service: request routes and the model manager

    A shallow embedding of
      - [ml_service/app/routes/semantic_search.py]  (module [Routes])
      - [ml_service/app/services/model_manager.py]  (module [Manager])
    followed by the properties of the two components.

    Python values are embedded as follows.  Text that arrives in a request
    is a [str]: the list of its Unicode code points, as Python holds it.
    Text written in the source (suffixes, tags, messages, attribute names)
    is ASCII and is written as a [string] literal; [lit] gives the code
    points of such a literal where it meets text of a request.  [None] in
    an [Optional[T]] is [None : option T]; a [float] is a binary64 primitive
    float; an [int] is a [Z].  A call either returns a value or raises, so
    every handler and every method yields an [outcome]. *)

From Stdlib Require Import String Ascii List Bool NArith ZArith Lia Permutation.
From Stdlib Require Import Floats.PrimFloat.
Import ListNotations.

Local Open Scope string_scope.
Local Open Scope list_scope.

(** ** The character data behind [str.lower]

    The tables of the Unicode Character Database, version 14.0, that
    CPython 3.11 is built with: the lowercase mappings and the two
    properties that decide how a capital sigma is lowered. *)

Module Unicode.
Local Open Scope N_scope.

(** The simple lowercase mappings, in runs [(first, last, stride, target)]:
    the code points [first], [first + stride], ..., [last] lowercase to
    [target], [target + stride], ...  A code point in no run is its own
    lowercase. *)
Definition lower_runs : list (N * N * N * N) :=
  [
    (0x41, 0x5A, 1, 0x61); (0xC0, 0xD6, 1, 0xE0); (0xD8, 0xDE, 1, 0xF8);
    (0x100, 0x12E, 2, 0x101); (0x132, 0x136, 2, 0x133); (0x139, 0x147, 2, 0x13A);
    (0x14A, 0x176, 2, 0x14B); (0x178, 0x178, 1, 0xFF); (0x179, 0x17D, 2, 0x17A);
    (0x181, 0x181, 1, 0x253); (0x182, 0x184, 2, 0x183); (0x186, 0x186, 1, 0x254);
    (0x187, 0x187, 1, 0x188); (0x189, 0x18A, 1, 0x256); (0x18B, 0x18B, 1, 0x18C);
    (0x18E, 0x18E, 1, 0x1DD); (0x18F, 0x18F, 1, 0x259); (0x190, 0x190, 1, 0x25B);
    (0x191, 0x191, 1, 0x192); (0x193, 0x193, 1, 0x260); (0x194, 0x194, 1, 0x263);
    (0x196, 0x196, 1, 0x269); (0x197, 0x197, 1, 0x268); (0x198, 0x198, 1, 0x199);
    (0x19C, 0x19C, 1, 0x26F); (0x19D, 0x19D, 1, 0x272); (0x19F, 0x19F, 1, 0x275);
    (0x1A0, 0x1A4, 2, 0x1A1); (0x1A6, 0x1A6, 1, 0x280); (0x1A7, 0x1A7, 1, 0x1A8);
    (0x1A9, 0x1A9, 1, 0x283); (0x1AC, 0x1AC, 1, 0x1AD); (0x1AE, 0x1AE, 1, 0x288);
    (0x1AF, 0x1AF, 1, 0x1B0); (0x1B1, 0x1B2, 1, 0x28A); (0x1B3, 0x1B5, 2, 0x1B4);
    (0x1B7, 0x1B7, 1, 0x292); (0x1B8, 0x1B8, 1, 0x1B9); (0x1BC, 0x1BC, 1, 0x1BD);
    (0x1C4, 0x1C4, 1, 0x1C6); (0x1C5, 0x1C5, 1, 0x1C6); (0x1C7, 0x1C7, 1, 0x1C9);
    (0x1C8, 0x1C8, 1, 0x1C9); (0x1CA, 0x1CA, 1, 0x1CC); (0x1CB, 0x1DB, 2, 0x1CC);
    (0x1DE, 0x1EE, 2, 0x1DF); (0x1F1, 0x1F1, 1, 0x1F3); (0x1F2, 0x1F4, 2, 0x1F3);
    (0x1F6, 0x1F6, 1, 0x195); (0x1F7, 0x1F7, 1, 0x1BF); (0x1F8, 0x21E, 2, 0x1F9);
    (0x220, 0x220, 1, 0x19E); (0x222, 0x232, 2, 0x223); (0x23A, 0x23A, 1, 0x2C65);
    (0x23B, 0x23B, 1, 0x23C); (0x23D, 0x23D, 1, 0x19A); (0x23E, 0x23E, 1, 0x2C66);
    (0x241, 0x241, 1, 0x242); (0x243, 0x243, 1, 0x180); (0x244, 0x244, 1, 0x289);
    (0x245, 0x245, 1, 0x28C); (0x246, 0x24E, 2, 0x247); (0x370, 0x372, 2, 0x371);
    (0x376, 0x376, 1, 0x377); (0x37F, 0x37F, 1, 0x3F3); (0x386, 0x386, 1, 0x3AC);
    (0x388, 0x38A, 1, 0x3AD); (0x38C, 0x38C, 1, 0x3CC); (0x38E, 0x38F, 1, 0x3CD);
    (0x391, 0x3A1, 1, 0x3B1); (0x3A3, 0x3AB, 1, 0x3C3); (0x3CF, 0x3CF, 1, 0x3D7);
    (0x3D8, 0x3EE, 2, 0x3D9); (0x3F4, 0x3F4, 1, 0x3B8); (0x3F7, 0x3F7, 1, 0x3F8);
    (0x3F9, 0x3F9, 1, 0x3F2); (0x3FA, 0x3FA, 1, 0x3FB); (0x3FD, 0x3FF, 1, 0x37B);
    (0x400, 0x40F, 1, 0x450); (0x410, 0x42F, 1, 0x430); (0x460, 0x480, 2, 0x461);
    (0x48A, 0x4BE, 2, 0x48B); (0x4C0, 0x4C0, 1, 0x4CF); (0x4C1, 0x4CD, 2, 0x4C2);
    (0x4D0, 0x52E, 2, 0x4D1); (0x531, 0x556, 1, 0x561); (0x10A0, 0x10C5, 1, 0x2D00);
    (0x10C7, 0x10C7, 1, 0x2D27); (0x10CD, 0x10CD, 1, 0x2D2D); (0x13A0, 0x13EF, 1, 0xAB70);
    (0x13F0, 0x13F5, 1, 0x13F8); (0x1C90, 0x1CBA, 1, 0x10D0); (0x1CBD, 0x1CBF, 1, 0x10FD);
    (0x1E00, 0x1E94, 2, 0x1E01); (0x1E9E, 0x1E9E, 1, 0xDF); (0x1EA0, 0x1EFE, 2, 0x1EA1);
    (0x1F08, 0x1F0F, 1, 0x1F00); (0x1F18, 0x1F1D, 1, 0x1F10); (0x1F28, 0x1F2F, 1, 0x1F20);
    (0x1F38, 0x1F3F, 1, 0x1F30); (0x1F48, 0x1F4D, 1, 0x1F40); (0x1F59, 0x1F5F, 2, 0x1F51);
    (0x1F68, 0x1F6F, 1, 0x1F60); (0x1F88, 0x1F8F, 1, 0x1F80); (0x1F98, 0x1F9F, 1, 0x1F90);
    (0x1FA8, 0x1FAF, 1, 0x1FA0); (0x1FB8, 0x1FB9, 1, 0x1FB0); (0x1FBA, 0x1FBB, 1, 0x1F70);
    (0x1FBC, 0x1FBC, 1, 0x1FB3); (0x1FC8, 0x1FCB, 1, 0x1F72); (0x1FCC, 0x1FCC, 1, 0x1FC3);
    (0x1FD8, 0x1FD9, 1, 0x1FD0); (0x1FDA, 0x1FDB, 1, 0x1F76); (0x1FE8, 0x1FE9, 1, 0x1FE0);
    (0x1FEA, 0x1FEB, 1, 0x1F7A); (0x1FEC, 0x1FEC, 1, 0x1FE5); (0x1FF8, 0x1FF9, 1, 0x1F78);
    (0x1FFA, 0x1FFB, 1, 0x1F7C); (0x1FFC, 0x1FFC, 1, 0x1FF3); (0x2126, 0x2126, 1, 0x3C9);
    (0x212A, 0x212A, 1, 0x6B); (0x212B, 0x212B, 1, 0xE5); (0x2132, 0x2132, 1, 0x214E);
    (0x2160, 0x216F, 1, 0x2170); (0x2183, 0x2183, 1, 0x2184); (0x24B6, 0x24CF, 1, 0x24D0);
    (0x2C00, 0x2C2F, 1, 0x2C30); (0x2C60, 0x2C60, 1, 0x2C61); (0x2C62, 0x2C62, 1, 0x26B);
    (0x2C63, 0x2C63, 1, 0x1D7D); (0x2C64, 0x2C64, 1, 0x27D); (0x2C67, 0x2C6B, 2, 0x2C68);
    (0x2C6D, 0x2C6D, 1, 0x251); (0x2C6E, 0x2C6E, 1, 0x271); (0x2C6F, 0x2C6F, 1, 0x250);
    (0x2C70, 0x2C70, 1, 0x252); (0x2C72, 0x2C72, 1, 0x2C73); (0x2C75, 0x2C75, 1, 0x2C76);
    (0x2C7E, 0x2C7F, 1, 0x23F); (0x2C80, 0x2CE2, 2, 0x2C81); (0x2CEB, 0x2CED, 2, 0x2CEC);
    (0x2CF2, 0x2CF2, 1, 0x2CF3); (0xA640, 0xA66C, 2, 0xA641); (0xA680, 0xA69A, 2, 0xA681);
    (0xA722, 0xA72E, 2, 0xA723); (0xA732, 0xA76E, 2, 0xA733); (0xA779, 0xA77B, 2, 0xA77A);
    (0xA77D, 0xA77D, 1, 0x1D79); (0xA77E, 0xA786, 2, 0xA77F); (0xA78B, 0xA78B, 1, 0xA78C);
    (0xA78D, 0xA78D, 1, 0x265); (0xA790, 0xA792, 2, 0xA791); (0xA796, 0xA7A8, 2, 0xA797);
    (0xA7AA, 0xA7AA, 1, 0x266); (0xA7AB, 0xA7AB, 1, 0x25C); (0xA7AC, 0xA7AC, 1, 0x261);
    (0xA7AD, 0xA7AD, 1, 0x26C); (0xA7AE, 0xA7AE, 1, 0x26A); (0xA7B0, 0xA7B0, 1, 0x29E);
    (0xA7B1, 0xA7B1, 1, 0x287); (0xA7B2, 0xA7B2, 1, 0x29D); (0xA7B3, 0xA7B3, 1, 0xAB53);
    (0xA7B4, 0xA7C2, 2, 0xA7B5); (0xA7C4, 0xA7C4, 1, 0xA794); (0xA7C5, 0xA7C5, 1, 0x282);
    (0xA7C6, 0xA7C6, 1, 0x1D8E); (0xA7C7, 0xA7C9, 2, 0xA7C8); (0xA7D0, 0xA7D0, 1, 0xA7D1);
    (0xA7D6, 0xA7D8, 2, 0xA7D7); (0xA7F5, 0xA7F5, 1, 0xA7F6); (0xFF21, 0xFF3A, 1, 0xFF41);
    (0x10400, 0x10427, 1, 0x10428); (0x104B0, 0x104D3, 1, 0x104D8); (0x10570, 0x1057A, 1, 0x10597);
    (0x1057C, 0x1058A, 1, 0x105A3); (0x1058C, 0x10592, 1, 0x105B3); (0x10594, 0x10595, 1, 0x105BB);
    (0x10C80, 0x10CB2, 1, 0x10CC0); (0x118A0, 0x118BF, 1, 0x118C0); (0x16E40, 0x16E5F, 1, 0x16E60);
    (0x1E900, 0x1E921, 1, 0x1E922) ].

(** The mappings entry by entry: a code point and its lowercase. *)
Definition expand (r : N * N * N * N) : list (N * N) :=
  let '(first, last, stride, target) := r in
  map (fun k => (first + N.of_nat k * stride, target + N.of_nat k * stride))
      (seq 0 (S (N.to_nat ((last - first) / stride)))).

Definition simple_lower : list (N * N) := flat_map expand lower_runs.

(** The one code point whose lowercase is more than one code point:
    LATIN CAPITAL LETTER I WITH DOT ABOVE. *)
Definition special_lower : list (N * list N) :=
  [ (0x130, [0x69; 0x307]) ].

(** The code points with the property Cased, in ranges [(first, last)]. *)
Definition cased_ranges : list (N * N) :=
  [
    (0x41, 0x5A); (0x61, 0x7A); (0xAA, 0xAA); (0xB5, 0xB5);
    (0xBA, 0xBA); (0xC0, 0xD6); (0xD8, 0xF6); (0xF8, 0x1BA);
    (0x1BC, 0x1BF); (0x1C4, 0x293); (0x295, 0x2B8); (0x2C0, 0x2C1);
    (0x2E0, 0x2E4); (0x345, 0x345); (0x370, 0x373); (0x376, 0x377);
    (0x37A, 0x37D); (0x37F, 0x37F); (0x386, 0x386); (0x388, 0x38A);
    (0x38C, 0x38C); (0x38E, 0x3A1); (0x3A3, 0x3F5); (0x3F7, 0x481);
    (0x48A, 0x52F); (0x531, 0x556); (0x560, 0x588); (0x10A0, 0x10C5);
    (0x10C7, 0x10C7); (0x10CD, 0x10CD); (0x10D0, 0x10FA); (0x10FD, 0x10FF);
    (0x13A0, 0x13F5); (0x13F8, 0x13FD); (0x1C80, 0x1C88); (0x1C90, 0x1CBA);
    (0x1CBD, 0x1CBF); (0x1D00, 0x1DBF); (0x1E00, 0x1F15); (0x1F18, 0x1F1D);
    (0x1F20, 0x1F45); (0x1F48, 0x1F4D); (0x1F50, 0x1F57); (0x1F59, 0x1F59);
    (0x1F5B, 0x1F5B); (0x1F5D, 0x1F5D); (0x1F5F, 0x1F7D); (0x1F80, 0x1FB4);
    (0x1FB6, 0x1FBC); (0x1FBE, 0x1FBE); (0x1FC2, 0x1FC4); (0x1FC6, 0x1FCC);
    (0x1FD0, 0x1FD3); (0x1FD6, 0x1FDB); (0x1FE0, 0x1FEC); (0x1FF2, 0x1FF4);
    (0x1FF6, 0x1FFC); (0x2071, 0x2071); (0x207F, 0x207F); (0x2090, 0x209C);
    (0x2102, 0x2102); (0x2107, 0x2107); (0x210A, 0x2113); (0x2115, 0x2115);
    (0x2119, 0x211D); (0x2124, 0x2124); (0x2126, 0x2126); (0x2128, 0x2128);
    (0x212A, 0x212D); (0x212F, 0x2134); (0x2139, 0x2139); (0x213C, 0x213F);
    (0x2145, 0x2149); (0x214E, 0x214E); (0x2160, 0x217F); (0x2183, 0x2184);
    (0x24B6, 0x24E9); (0x2C00, 0x2CE4); (0x2CEB, 0x2CEE); (0x2CF2, 0x2CF3);
    (0x2D00, 0x2D25); (0x2D27, 0x2D27); (0x2D2D, 0x2D2D); (0xA640, 0xA66D);
    (0xA680, 0xA69D); (0xA722, 0xA787); (0xA78B, 0xA78E); (0xA790, 0xA7CA);
    (0xA7D0, 0xA7D1); (0xA7D3, 0xA7D3); (0xA7D5, 0xA7D9); (0xA7F5, 0xA7F6);
    (0xA7F8, 0xA7FA); (0xAB30, 0xAB5A); (0xAB5C, 0xAB68); (0xAB70, 0xABBF);
    (0xFB00, 0xFB06); (0xFB13, 0xFB17); (0xFF21, 0xFF3A); (0xFF41, 0xFF5A);
    (0x10400, 0x1044F); (0x104B0, 0x104D3); (0x104D8, 0x104FB); (0x10570, 0x1057A);
    (0x1057C, 0x1058A); (0x1058C, 0x10592); (0x10594, 0x10595); (0x10597, 0x105A1);
    (0x105A3, 0x105B1); (0x105B3, 0x105B9); (0x105BB, 0x105BC); (0x10780, 0x10780);
    (0x10783, 0x10785); (0x10787, 0x107B0); (0x107B2, 0x107BA); (0x10C80, 0x10CB2);
    (0x10CC0, 0x10CF2); (0x118A0, 0x118DF); (0x16E40, 0x16E7F); (0x1D400, 0x1D454);
    (0x1D456, 0x1D49C); (0x1D49E, 0x1D49F); (0x1D4A2, 0x1D4A2); (0x1D4A5, 0x1D4A6);
    (0x1D4A9, 0x1D4AC); (0x1D4AE, 0x1D4B9); (0x1D4BB, 0x1D4BB); (0x1D4BD, 0x1D4C3);
    (0x1D4C5, 0x1D505); (0x1D507, 0x1D50A); (0x1D50D, 0x1D514); (0x1D516, 0x1D51C);
    (0x1D51E, 0x1D539); (0x1D53B, 0x1D53E); (0x1D540, 0x1D544); (0x1D546, 0x1D546);
    (0x1D54A, 0x1D550); (0x1D552, 0x1D6A5); (0x1D6A8, 0x1D6C0); (0x1D6C2, 0x1D6DA);
    (0x1D6DC, 0x1D6FA); (0x1D6FC, 0x1D714); (0x1D716, 0x1D734); (0x1D736, 0x1D74E);
    (0x1D750, 0x1D76E); (0x1D770, 0x1D788); (0x1D78A, 0x1D7A8); (0x1D7AA, 0x1D7C2);
    (0x1D7C4, 0x1D7CB); (0x1DF00, 0x1DF09); (0x1DF0B, 0x1DF1E); (0x1E900, 0x1E943);
    (0x1F130, 0x1F149); (0x1F150, 0x1F169); (0x1F170, 0x1F189) ].

(** The code points with the property Case_Ignorable, in ranges. *)
Definition case_ignorable_ranges : list (N * N) :=
  [
    (0x27, 0x27); (0x2E, 0x2E); (0x3A, 0x3A); (0x5E, 0x5E);
    (0x60, 0x60); (0xA8, 0xA8); (0xAD, 0xAD); (0xAF, 0xAF);
    (0xB4, 0xB4); (0xB7, 0xB8); (0x2B0, 0x36F); (0x374, 0x375);
    (0x37A, 0x37A); (0x384, 0x385); (0x387, 0x387); (0x483, 0x489);
    (0x559, 0x559); (0x55F, 0x55F); (0x591, 0x5BD); (0x5BF, 0x5BF);
    (0x5C1, 0x5C2); (0x5C4, 0x5C5); (0x5C7, 0x5C7); (0x5F4, 0x5F4);
    (0x600, 0x605); (0x610, 0x61A); (0x61C, 0x61C); (0x640, 0x640);
    (0x64B, 0x65F); (0x670, 0x670); (0x6D6, 0x6DD); (0x6DF, 0x6E8);
    (0x6EA, 0x6ED); (0x70F, 0x70F); (0x711, 0x711); (0x730, 0x74A);
    (0x7A6, 0x7B0); (0x7EB, 0x7F5); (0x7FA, 0x7FA); (0x7FD, 0x7FD);
    (0x816, 0x82D); (0x859, 0x85B); (0x888, 0x888); (0x890, 0x891);
    (0x898, 0x89F); (0x8C9, 0x902); (0x93A, 0x93A); (0x93C, 0x93C);
    (0x941, 0x948); (0x94D, 0x94D); (0x951, 0x957); (0x962, 0x963);
    (0x971, 0x971); (0x981, 0x981); (0x9BC, 0x9BC); (0x9C1, 0x9C4);
    (0x9CD, 0x9CD); (0x9E2, 0x9E3); (0x9FE, 0x9FE); (0xA01, 0xA02);
    (0xA3C, 0xA3C); (0xA41, 0xA42); (0xA47, 0xA48); (0xA4B, 0xA4D);
    (0xA51, 0xA51); (0xA70, 0xA71); (0xA75, 0xA75); (0xA81, 0xA82);
    (0xABC, 0xABC); (0xAC1, 0xAC5); (0xAC7, 0xAC8); (0xACD, 0xACD);
    (0xAE2, 0xAE3); (0xAFA, 0xAFF); (0xB01, 0xB01); (0xB3C, 0xB3C);
    (0xB3F, 0xB3F); (0xB41, 0xB44); (0xB4D, 0xB4D); (0xB55, 0xB56);
    (0xB62, 0xB63); (0xB82, 0xB82); (0xBC0, 0xBC0); (0xBCD, 0xBCD);
    (0xC00, 0xC00); (0xC04, 0xC04); (0xC3C, 0xC3C); (0xC3E, 0xC40);
    (0xC46, 0xC48); (0xC4A, 0xC4D); (0xC55, 0xC56); (0xC62, 0xC63);
    (0xC81, 0xC81); (0xCBC, 0xCBC); (0xCBF, 0xCBF); (0xCC6, 0xCC6);
    (0xCCC, 0xCCD); (0xCE2, 0xCE3); (0xD00, 0xD01); (0xD3B, 0xD3C);
    (0xD41, 0xD44); (0xD4D, 0xD4D); (0xD62, 0xD63); (0xD81, 0xD81);
    (0xDCA, 0xDCA); (0xDD2, 0xDD4); (0xDD6, 0xDD6); (0xE31, 0xE31);
    (0xE34, 0xE3A); (0xE46, 0xE4E); (0xEB1, 0xEB1); (0xEB4, 0xEBC);
    (0xEC6, 0xEC6); (0xEC8, 0xECD); (0xF18, 0xF19); (0xF35, 0xF35);
    (0xF37, 0xF37); (0xF39, 0xF39); (0xF71, 0xF7E); (0xF80, 0xF84);
    (0xF86, 0xF87); (0xF8D, 0xF97); (0xF99, 0xFBC); (0xFC6, 0xFC6);
    (0x102D, 0x1030); (0x1032, 0x1037); (0x1039, 0x103A); (0x103D, 0x103E);
    (0x1058, 0x1059); (0x105E, 0x1060); (0x1071, 0x1074); (0x1082, 0x1082);
    (0x1085, 0x1086); (0x108D, 0x108D); (0x109D, 0x109D); (0x10FC, 0x10FC);
    (0x135D, 0x135F); (0x1712, 0x1714); (0x1732, 0x1733); (0x1752, 0x1753);
    (0x1772, 0x1773); (0x17B4, 0x17B5); (0x17B7, 0x17BD); (0x17C6, 0x17C6);
    (0x17C9, 0x17D3); (0x17D7, 0x17D7); (0x17DD, 0x17DD); (0x180B, 0x180F);
    (0x1843, 0x1843); (0x1885, 0x1886); (0x18A9, 0x18A9); (0x1920, 0x1922);
    (0x1927, 0x1928); (0x1932, 0x1932); (0x1939, 0x193B); (0x1A17, 0x1A18);
    (0x1A1B, 0x1A1B); (0x1A56, 0x1A56); (0x1A58, 0x1A5E); (0x1A60, 0x1A60);
    (0x1A62, 0x1A62); (0x1A65, 0x1A6C); (0x1A73, 0x1A7C); (0x1A7F, 0x1A7F);
    (0x1AA7, 0x1AA7); (0x1AB0, 0x1ACE); (0x1B00, 0x1B03); (0x1B34, 0x1B34);
    (0x1B36, 0x1B3A); (0x1B3C, 0x1B3C); (0x1B42, 0x1B42); (0x1B6B, 0x1B73);
    (0x1B80, 0x1B81); (0x1BA2, 0x1BA5); (0x1BA8, 0x1BA9); (0x1BAB, 0x1BAD);
    (0x1BE6, 0x1BE6); (0x1BE8, 0x1BE9); (0x1BED, 0x1BED); (0x1BEF, 0x1BF1);
    (0x1C2C, 0x1C33); (0x1C36, 0x1C37); (0x1C78, 0x1C7D); (0x1CD0, 0x1CD2);
    (0x1CD4, 0x1CE0); (0x1CE2, 0x1CE8); (0x1CED, 0x1CED); (0x1CF4, 0x1CF4);
    (0x1CF8, 0x1CF9); (0x1D2C, 0x1D6A); (0x1D78, 0x1D78); (0x1D9B, 0x1DFF);
    (0x1FBD, 0x1FBD); (0x1FBF, 0x1FC1); (0x1FCD, 0x1FCF); (0x1FDD, 0x1FDF);
    (0x1FED, 0x1FEF); (0x1FFD, 0x1FFE); (0x200B, 0x200F); (0x2018, 0x2019);
    (0x2024, 0x2024); (0x2027, 0x2027); (0x202A, 0x202E); (0x2060, 0x2064);
    (0x2066, 0x206F); (0x2071, 0x2071); (0x207F, 0x207F); (0x2090, 0x209C);
    (0x20D0, 0x20F0); (0x2C7C, 0x2C7D); (0x2CEF, 0x2CF1); (0x2D6F, 0x2D6F);
    (0x2D7F, 0x2D7F); (0x2DE0, 0x2DFF); (0x2E2F, 0x2E2F); (0x3005, 0x3005);
    (0x302A, 0x302D); (0x3031, 0x3035); (0x303B, 0x303B); (0x3099, 0x309E);
    (0x30FC, 0x30FE); (0xA015, 0xA015); (0xA4F8, 0xA4FD); (0xA60C, 0xA60C);
    (0xA66F, 0xA672); (0xA674, 0xA67D); (0xA67F, 0xA67F); (0xA69C, 0xA69F);
    (0xA6F0, 0xA6F1); (0xA700, 0xA721); (0xA770, 0xA770); (0xA788, 0xA78A);
    (0xA7F2, 0xA7F4); (0xA7F8, 0xA7F9); (0xA802, 0xA802); (0xA806, 0xA806);
    (0xA80B, 0xA80B); (0xA825, 0xA826); (0xA82C, 0xA82C); (0xA8C4, 0xA8C5);
    (0xA8E0, 0xA8F1); (0xA8FF, 0xA8FF); (0xA926, 0xA92D); (0xA947, 0xA951);
    (0xA980, 0xA982); (0xA9B3, 0xA9B3); (0xA9B6, 0xA9B9); (0xA9BC, 0xA9BD);
    (0xA9CF, 0xA9CF); (0xA9E5, 0xA9E6); (0xAA29, 0xAA2E); (0xAA31, 0xAA32);
    (0xAA35, 0xAA36); (0xAA43, 0xAA43); (0xAA4C, 0xAA4C); (0xAA70, 0xAA70);
    (0xAA7C, 0xAA7C); (0xAAB0, 0xAAB0); (0xAAB2, 0xAAB4); (0xAAB7, 0xAAB8);
    (0xAABE, 0xAABF); (0xAAC1, 0xAAC1); (0xAADD, 0xAADD); (0xAAEC, 0xAAED);
    (0xAAF3, 0xAAF4); (0xAAF6, 0xAAF6); (0xAB5B, 0xAB5F); (0xAB69, 0xAB6B);
    (0xABE5, 0xABE5); (0xABE8, 0xABE8); (0xABED, 0xABED); (0xFB1E, 0xFB1E);
    (0xFBB2, 0xFBC2); (0xFE00, 0xFE0F); (0xFE13, 0xFE13); (0xFE20, 0xFE2F);
    (0xFE52, 0xFE52); (0xFE55, 0xFE55); (0xFEFF, 0xFEFF); (0xFF07, 0xFF07);
    (0xFF0E, 0xFF0E); (0xFF1A, 0xFF1A); (0xFF3E, 0xFF3E); (0xFF40, 0xFF40);
    (0xFF70, 0xFF70); (0xFF9E, 0xFF9F); (0xFFE3, 0xFFE3); (0xFFF9, 0xFFFB);
    (0x101FD, 0x101FD); (0x102E0, 0x102E0); (0x10376, 0x1037A); (0x10780, 0x10785);
    (0x10787, 0x107B0); (0x107B2, 0x107BA); (0x10A01, 0x10A03); (0x10A05, 0x10A06);
    (0x10A0C, 0x10A0F); (0x10A38, 0x10A3A); (0x10A3F, 0x10A3F); (0x10AE5, 0x10AE6);
    (0x10D24, 0x10D27); (0x10EAB, 0x10EAC); (0x10F46, 0x10F50); (0x10F82, 0x10F85);
    (0x11001, 0x11001); (0x11038, 0x11046); (0x11070, 0x11070); (0x11073, 0x11074);
    (0x1107F, 0x11081); (0x110B3, 0x110B6); (0x110B9, 0x110BA); (0x110BD, 0x110BD);
    (0x110C2, 0x110C2); (0x110CD, 0x110CD); (0x11100, 0x11102); (0x11127, 0x1112B);
    (0x1112D, 0x11134); (0x11173, 0x11173); (0x11180, 0x11181); (0x111B6, 0x111BE);
    (0x111C9, 0x111CC); (0x111CF, 0x111CF); (0x1122F, 0x11231); (0x11234, 0x11234);
    (0x11236, 0x11237); (0x1123E, 0x1123E); (0x112DF, 0x112DF); (0x112E3, 0x112EA);
    (0x11300, 0x11301); (0x1133B, 0x1133C); (0x11340, 0x11340); (0x11366, 0x1136C);
    (0x11370, 0x11374); (0x11438, 0x1143F); (0x11442, 0x11444); (0x11446, 0x11446);
    (0x1145E, 0x1145E); (0x114B3, 0x114B8); (0x114BA, 0x114BA); (0x114BF, 0x114C0);
    (0x114C2, 0x114C3); (0x115B2, 0x115B5); (0x115BC, 0x115BD); (0x115BF, 0x115C0);
    (0x115DC, 0x115DD); (0x11633, 0x1163A); (0x1163D, 0x1163D); (0x1163F, 0x11640);
    (0x116AB, 0x116AB); (0x116AD, 0x116AD); (0x116B0, 0x116B5); (0x116B7, 0x116B7);
    (0x1171D, 0x1171F); (0x11722, 0x11725); (0x11727, 0x1172B); (0x1182F, 0x11837);
    (0x11839, 0x1183A); (0x1193B, 0x1193C); (0x1193E, 0x1193E); (0x11943, 0x11943);
    (0x119D4, 0x119D7); (0x119DA, 0x119DB); (0x119E0, 0x119E0); (0x11A01, 0x11A0A);
    (0x11A33, 0x11A38); (0x11A3B, 0x11A3E); (0x11A47, 0x11A47); (0x11A51, 0x11A56);
    (0x11A59, 0x11A5B); (0x11A8A, 0x11A96); (0x11A98, 0x11A99); (0x11C30, 0x11C36);
    (0x11C38, 0x11C3D); (0x11C3F, 0x11C3F); (0x11C92, 0x11CA7); (0x11CAA, 0x11CB0);
    (0x11CB2, 0x11CB3); (0x11CB5, 0x11CB6); (0x11D31, 0x11D36); (0x11D3A, 0x11D3A);
    (0x11D3C, 0x11D3D); (0x11D3F, 0x11D45); (0x11D47, 0x11D47); (0x11D90, 0x11D91);
    (0x11D95, 0x11D95); (0x11D97, 0x11D97); (0x11EF3, 0x11EF4); (0x13430, 0x13438);
    (0x16AF0, 0x16AF4); (0x16B30, 0x16B36); (0x16B40, 0x16B43); (0x16F4F, 0x16F4F);
    (0x16F8F, 0x16F9F); (0x16FE0, 0x16FE1); (0x16FE3, 0x16FE4); (0x1AFF0, 0x1AFF3);
    (0x1AFF5, 0x1AFFB); (0x1AFFD, 0x1AFFE); (0x1BC9D, 0x1BC9E); (0x1BCA0, 0x1BCA3);
    (0x1CF00, 0x1CF2D); (0x1CF30, 0x1CF46); (0x1D167, 0x1D169); (0x1D173, 0x1D182);
    (0x1D185, 0x1D18B); (0x1D1AA, 0x1D1AD); (0x1D242, 0x1D244); (0x1DA00, 0x1DA36);
    (0x1DA3B, 0x1DA6C); (0x1DA75, 0x1DA75); (0x1DA84, 0x1DA84); (0x1DA9B, 0x1DA9F);
    (0x1DAA1, 0x1DAAF); (0x1E000, 0x1E006); (0x1E008, 0x1E018); (0x1E01B, 0x1E021);
    (0x1E023, 0x1E024); (0x1E026, 0x1E02A); (0x1E130, 0x1E13D); (0x1E2AE, 0x1E2AE);
    (0x1E2EC, 0x1E2EF); (0x1E8D0, 0x1E8D6); (0x1E944, 0x1E94B); (0x1F3FB, 0x1F3FF);
    (0xE0001, 0xE0001); (0xE0020, 0xE007F); (0xE0100, 0xE01EF) ].

End Unicode.

(** ** Python runtime: exceptions, [str] methods, [list.append] *)

Module Py.
Import Unicode.

(** The exceptions this code base can raise: the HTTP error of the two
    disabled routes, and the error of reading an unbound attribute. *)
Inductive exn : Type :=
| HTTPException (status_code : Z) (detail : string)
| AttributeError (name : string).

Inductive outcome (A : Type) : Type :=
| Return (value : A)
| Raise (e : exn).

Arguments Return {A} value.
Arguments Raise {A} e.

(** A [str]: its code points, in order. *)
Definition str : Type := list N.

(** The [str] of an ASCII literal of the source. *)
Definition lit (s : string) : str :=
  map N_of_ascii (list_ascii_of_string s).

Coercion lit : string >-> str.

(** The [str]s of a tuple of literals. *)
Definition lits (l : list string) : list str := map lit l.

(** [a == b] on [str]. *)
Fixpoint str_eqb (a b : str) : bool :=
  match a, b with
  | [], [] => true
  | x :: a', y :: b' => (x =? y)%N && str_eqb a' b'
  | _, _ => false
  end.

Definition in_ranges (c : N) (ranges : list (N * N)) : bool :=
  existsb (fun r => (fst r <=? c)%N && (c <=? snd r)%N) ranges.

Definition is_cased (c : N) : bool := in_ranges c cased_ranges.

Definition is_case_ignorable (c : N) : bool :=
  in_ranges c case_ignorable_ranges.

(** The lowercase of one code point, by the simple mappings. *)
Definition to_lower (c : N) : N :=
  match find (fun e => (fst e =? c)%N) simple_lower with
  | Some e => snd e
  | None => c
  end.

(** The full lowercase of one code point: one code point or more. *)
Definition to_lower_full (c : N) : str :=
  match find (fun e => (fst e =? c)%N) special_lower with
  | Some e => snd e
  | None => [to_lower c]
  end.

Fixpoint skip_case_ignorable (s : str) : str :=
  match s with
  | [] => []
  | c :: rest => if is_case_ignorable c then skip_case_ignorable rest else s
  end.

(** A capital sigma is final when, case-ignorable code points skipped, a
    cased code point stands before it and none stands after it.  [before]
    holds what precedes the sigma, nearest first; [after] what follows. *)
Definition final_sigma (before after : str) : bool :=
  match skip_case_ignorable before with
  | [] => false
  | c :: _ =>
      is_cased c &&
      match skip_case_ignorable after with
      | [] => true
      | c' :: _ => negb (is_cased c')
      end
  end.

(** [s.lower()] from some position on: [before] holds the code points of
    the string that precede [s], nearest first.  GREEK CAPITAL LETTER
    SIGMA (U+03A3) becomes the final small sigma (U+03C2) or the small
    sigma (U+03C3) by its place; every other code point becomes its full
    lowercase. *)
Fixpoint lower_from (before s : str) : str :=
  match s with
  | [] => []
  | c :: rest =>
      (if (c =? 0x3A3)%N then
         [if final_sigma before rest then 0x3C2%N else 0x3C3%N]
       else
         to_lower_full c)
      ++ lower_from (c :: before) rest
  end.

(** [s.lower()]. *)
Definition lower (s : str) : str := lower_from [] s.

(** [s.endswith(suffix)] for one suffix: [s] is [suffix], or what follows
    its first character ends with [suffix]. *)
Fixpoint endswith1 (s suffix : str) : bool :=
  str_eqb s suffix ||
  match s with
  | [] => false
  | _ :: rest => endswith1 rest suffix
  end.

(** [s.endswith((suffix_1, ..., suffix_n))]: some suffix of the tuple,
    tried from left to right, ends [s]. *)
Definition endswith (s : str) (suffixes : list str) : bool :=
  existsb (endswith1 s) suffixes.

(** [l.append(x)], returning the list it leaves behind. *)
Definition append {A : Type} (l : list A) (x : A) : list A := l ++ [x].

End Py.

(** ** [routes/semantic_search.py] *)

Module Routes.
Import Py.

(** The pydantic request models. *)
Record FileData : Type := {
  id : str;
  name : str;
  description : option str
}.

Record SearchRequest : Type := {
  query : str;
  files : list FileData;
  threshold : option float;
  top_k : option Z
}.

Record GenerateEmbeddingRequest : Type := {
  text : str
}.

Record GenerateTagsRequest : Type := {
  filename : str;
  content_preview : option str
}.

(** A response body: a JSON object whose values are lists of strings, as
    the [dict] that [generate_tags] returns. *)
Definition body : Type := list (string * list string).

Section Handlers.

(** The framework's request object, handed to every handler as
    [app_request]; none of them looks inside. *)
Context {Request : Type}.

Definition semantic_search
    (request : SearchRequest) (app_request : Request) : outcome body :=
  Raise (HTTPException 503
    "Semantic search is disabled (memory optimization for 512MB limit). Using keyword search instead.").

Definition generate_embedding
    (request : GenerateEmbeddingRequest) (app_request : Request)
    : outcome body :=
  Raise (HTTPException 503
    "Embedding generation is disabled (memory optimization for 512MB limit).").

Definition generate_tags
    (request : GenerateTagsRequest) (app_request : Request)
    : outcome body :=
  let filename := lower (filename request) in
  let tags : list string := [] in
  let tags :=
    if endswith filename (lits [".pdf"]) then
      append tags "document"
    else if endswith filename (lits [".doc"; ".docx"]) then
      append (append tags "document") "word"
    else if endswith filename (lits [".xls"; ".xlsx"; ".csv"]) then
      append (append tags "spreadsheet") "data"
    else if endswith filename (lits [".ppt"; ".pptx"]) then
      append tags "presentation"
    else if endswith filename
              (lits [".jpg"; ".jpeg"; ".png"; ".gif"; ".webp"; ".bmp"]) then
      append tags "image"
    else if endswith filename (lits [".mp4"; ".avi"; ".mov"; ".mkv"]) then
      append tags "video"
    else if endswith filename (lits [".mp3"; ".wav"; ".ogg"; ".flac"]) then
      append tags "audio"
    else if endswith filename (lits [".zip"; ".rar"; ".7z"; ".tar"; ".gz"]) then
      append tags "archive"
    else if endswith filename
              (lits [".py"; ".js"; ".ts"; ".java"; ".cpp"; ".c"; ".h"]) then
      append (append tags "code") "technical"
    else if endswith filename (lits [".txt"; ".md"]) then
      append tags "text"
    else if endswith filename (lits [".json"; ".xml"; ".yaml"; ".yml"]) then
      append (append tags "data") "technical"
    else
      append tags "other" in
  Return [("tags", tags)].

End Handlers.

End Routes.
(** ** [services/model_manager.py] *)

Module Manager.
Import Py.

(** A model object held by the manager: only its identity matters. *)
Inductive PyObject : Type :=
| ObjectRef (address : N).

(** An instance attribute is unbound until it is first assigned, and is
    unbound again after [del]. *)
Inductive slot (A : Type) : Type :=
| Unbound
| Bound (v : A).

Arguments Unbound {A}.
Arguments Bound {A} v.

(** The attributes of a [ModelManager] instance. *)
Record ModelManager : Type := {
  current_model : slot (option string);
  semantic_model : slot (option PyObject);
  pii_model : slot (option PyObject);
  is_loaded : slot bool
}.

(** What a method can touch: the instance, the lines printed so far, and
    the number of collections requested from the garbage collector. *)
Record Process : Type := {
  self : ModelManager;
  stdout : list string;
  gc_collections : nat
}.

(** Methods run in a state and exception monad over [Process]: what was
    done before a [raise] stays done. *)
Definition M (A : Type) : Type := Process -> outcome A * Process.

Definition ret {A : Type} (a : A) : M A := fun p => (Return a, p).

Definition bind {A B : Type} (m : M A) (k : A -> M B) : M B :=
  fun p =>
    match m p with
    | (Return a, p') => k a p'
    | (Raise e, p') => (Raise e, p')
    end.

Notation "x <- m ;; k" := (bind m (fun x => k))
  (at level 61, m at next level, right associativity).
Notation "m ;; k" := (bind m (fun _ => k))
  (at level 61, right associativity).

(** An attribute of the instance: its name, how to read its slot and how
    to overwrite it. *)
Record attribute (A : Type) : Type := {
  attr_name : string;
  attr_slot : ModelManager -> slot A;
  attr_store : slot A -> ModelManager -> ModelManager
}.

Arguments attr_name {A} _.
Arguments attr_slot {A} _ _.
Arguments attr_store {A} _ _ _.

Definition self_current_model : attribute (option string) := {|
  attr_name := "current_model";
  attr_slot := current_model;
  attr_store := fun s o =>
    {| current_model := s; semantic_model := semantic_model o;
       pii_model := pii_model o; is_loaded := is_loaded o |}
|}.

Definition self_semantic_model : attribute (option PyObject) := {|
  attr_name := "semantic_model";
  attr_slot := semantic_model;
  attr_store := fun s o =>
    {| current_model := current_model o; semantic_model := s;
       pii_model := pii_model o; is_loaded := is_loaded o |}
|}.

Definition self_pii_model : attribute (option PyObject) := {|
  attr_name := "pii_model";
  attr_slot := pii_model;
  attr_store := fun s o =>
    {| current_model := current_model o; semantic_model := semantic_model o;
       pii_model := s; is_loaded := is_loaded o |}
|}.

Definition self_is_loaded : attribute bool := {|
  attr_name := "is_loaded";
  attr_slot := is_loaded;
  attr_store := fun s o =>
    {| current_model := current_model o; semantic_model := semantic_model o;
       pii_model := pii_model o; is_loaded := s |}
|}.

Definition with_self (f : ModelManager -> ModelManager) (p : Process)
    : Process :=
  {| self := f (self p); stdout := stdout p;
     gc_collections := gc_collections p |}.

(** [self.a]: reading an unbound attribute raises [AttributeError]. *)
Definition getattr {A : Type} (a : attribute A) : M A :=
  fun p =>
    match attr_slot a (self p) with
    | Bound v => (Return v, p)
    | Unbound => (Raise (AttributeError (attr_name a)), p)
    end.

(** [self.a = v]. *)
Definition setattr {A : Type} (a : attribute A) (v : A) : M unit :=
  fun p => (Return tt, with_self (attr_store a (Bound v)) p).

(** [del self.a]: deleting an unbound attribute raises [AttributeError]. *)
Definition delattr {A : Type} (a : attribute A) : M unit :=
  fun p =>
    match attr_slot a (self p) with
    | Bound _ => (Return tt, with_self (attr_store a Unbound) p)
    | Unbound => (Raise (AttributeError (attr_name a)), p)
    end.

(** [print(line)]. *)
Definition print (line : string) : M unit :=
  fun p =>
    (Return tt,
     {| self := self p; stdout := stdout p ++ [line];
        gc_collections := gc_collections p |}).

(** [gc.collect()], its result dropped. *)
Definition gc_collect : M unit :=
  fun p =>
    (Return tt,
     {| self := self p; stdout := stdout p;
        gc_collections := S (gc_collections p) |}).

(** [x is not None]. *)
Definition is_not_None {A : Type} (x : option A) : bool :=
  match x with
  | Some _ => true
  | None => false
  end.

Definition __init__ (init_quick : bool) : M unit :=
  setattr self_current_model None ;;
  setattr self_semantic_model None ;;
  setattr self_pii_model None ;;
  setattr self_is_loaded true ;;
  if negb init_quick then
    print "✅ ModelManager initialized (lightweight mode - no heavy models)"
  else
    ret tt.

Definition _unload_all_models : M unit :=
  m <- getattr self_semantic_model ;;
  (if is_not_None m then
     delattr self_semantic_model ;;
     setattr self_semantic_model None
   else ret tt) ;;
  m <- getattr self_pii_model ;;
  (if is_not_None m then
     delattr self_pii_model ;;
     setattr self_pii_model None
   else ret tt) ;;
  gc_collect ;;
  setattr self_current_model None.

Definition get_semantic_model : M (option PyObject) :=
  print "⚠️ Semantic search model disabled (memory optimization for 512MB limit)" ;;
  print "   Falling back to keyword-based search in backend" ;;
  ret None.

Definition get_pii_model : M (option PyObject) :=
  print "⚠️ spaCy PII model disabled (memory optimization for 512MB limit)" ;;
  print "   Using regex-based PII detection instead" ;;
  ret None.

Definition load : M unit :=
  setattr self_is_loaded true ;;
  print "✅ ModelManager ready (lightweight mode)".

Definition cleanup : M unit :=
  print "🧹 Cleaning up models..." ;;
  _unload_all_models ;;
  gc_collect ;;
  print "✅ Cleanup complete".

(** A fresh instance, before [__init__] has run: no attribute is bound. *)
Definition blank : ModelManager := {|
  current_model := Unbound;
  semantic_model := Unbound;
  pii_model := Unbound;
  is_loaded := Unbound
|}.

(** [ModelManager(init_quick)]: allocate an instance, then initialise it. *)
Definition new (init_quick : bool) : M unit :=
  fun p => __init__ init_quick (with_self (fun _ => blank) p).

(** The calls a client can make on the instance, and a history of them
    run in order; a call that raises ends the history there. *)
Inductive call : Type :=
| Load
| Cleanup
| GetSemanticModel
| GetPiiModel.

Definition perform (c : call) : M unit :=
  match c with
  | Load => load
  | Cleanup => cleanup
  | GetSemanticModel => _ <- get_semantic_model ;; ret tt
  | GetPiiModel => _ <- get_pii_model ;; ret tt
  end.

Fixpoint history (calls : list call) : M unit :=
  match calls with
  | [] => ret tt
  | c :: rest => perform c ;; history rest
  end.

(** The attributes that [cleanup] reads are bound, to [None] or to a
    model. *)
Definition initialised (o : ModelManager) : Prop :=
  semantic_model o <> Unbound /\ pii_model o <> Unbound.

End Manager.

(** ** The tagging rules as the specification words them *)

Module Spec.
Import Py.

(** [suffix] ends [s]: some text, possibly empty, followed by [suffix]
    makes up [s]. *)
Definition is_suffix (suffix s : str) : Prop :=
  exists front : str, s = front ++ suffix.

(** A row of the table: a suffix group and the tags it emits. *)
Definition rule : Type := (list string * list string)%type.

(** The table of the tagging operation, rows in priority order. *)
Definition suffix_table : list rule :=
  [ ([".pdf"], ["document"]);
    ([".doc"; ".docx"], ["document"; "word"]);
    ([".xls"; ".xlsx"; ".csv"], ["spreadsheet"; "data"]);
    ([".ppt"; ".pptx"], ["presentation"]);
    ([".jpg"; ".jpeg"; ".png"; ".gif"; ".webp"; ".bmp"], ["image"]);
    ([".mp4"; ".avi"; ".mov"; ".mkv"], ["video"]);
    ([".mp3"; ".wav"; ".ogg"; ".flac"], ["audio"]);
    ([".zip"; ".rar"; ".7z"; ".tar"; ".gz"], ["archive"]);
    ([".py"; ".js"; ".ts"; ".java"; ".cpp"; ".c"; ".h"],
     ["code"; "technical"]);
    ([".txt"; ".md"], ["text"]);
    ([".json"; ".xml"; ".yaml"; ".yml"], ["data"; "technical"]) ].

(** The last row: what a name matching no group gets. *)
Definition fallback : list string := ["other"].

(** A group matches a name when one of its suffixes ends the name. *)
Definition group_matches (s : str) (group : list string) : Prop :=
  exists suffix, In suffix group /\ is_suffix (lit suffix) s.

(** First match wins: [selects s table tags] when [tags] is the bundle of
    the first row of [table] whose group matches [s], and the fallback
    when no row does.  Nothing is accumulated across rows. *)
Inductive selects (s : str) : list rule -> list string -> Prop :=
| selects_fallback :
    selects s [] fallback
| selects_here : forall group tags rest,
    group_matches s group ->
    selects s ((group, tags) :: rest) tags
| selects_later : forall group tags rest out,
    ~ group_matches s group ->
    selects s rest out ->
    selects s ((group, tags) :: rest) out.

(** The same reading as a function over the table as data. *)
Fixpoint first_match (table : list rule) (s : str) : list string :=
  match table with
  | [] => fallback
  | (group, tags) :: rest =>
      if Py.endswith s (lits group) then tags else first_match rest s
  end.

(** The labels a tag list may contain. *)
Definition vocabulary : list string :=
  [ "document"; "word"; "spreadsheet"; "data"; "presentation"; "image";
    "video"; "audio"; "archive"; "code"; "technical"; "text"; "other" ].

(** What every bundle of the table satisfies: one or two labels, no label
    twice, every label in the vocabulary. *)
Definition well_formed_bundle (tags : list string) : Prop :=
  (length tags = 1 \/ length tags = 2)%nat /\
  NoDup tags /\
  Forall (fun t => In t vocabulary) tags.

(** Lowercasing within ASCII, by arithmetic on the code point: the
    capitals [A]..[Z] (65..90) move up by 32 to [a]..[z], every other
    code point stays. *)
Definition ascii_lower (c : N) : N :=
  if ((65 <=? c) && (c <=? 90))%N then (c + 32)%N else c.

(** Every code point of [s] is ASCII. *)
Definition is_ascii (s : str) : Prop := Forall (fun c => (c < 128)%N) s.

End Spec.

(** ** Notions for describing the handlers and the manager from outside *)

Module View.
Import Py Manager Spec.

(** [s] holds a full stop (U+002E). *)
Fixpoint has_dot (s : str) : bool :=
  match s with
  | [] => false
  | c :: rest => (c =? 46)%N || has_dot rest
  end.

(** The extension of a filename: its text from the last full stop on, the
    stop included; empty when the name holds no full stop. *)
Fixpoint extension (s : str) : str :=
  match s with
  | [] => []
  | c :: rest =>
      if has_dot rest then extension rest
      else if (c =? 46)%N then s
      else []
  end.

(** A suffix made of a full stop and text without one, as every suffix of
    the table is. *)
Definition dotted (suffix : str) : bool :=
  match suffix with
  | [] => false
  | c :: rest => (c =? 46)%N && negb (has_dot rest)
  end.

(** Looking an extension up by equality: the bundle of the first row whose
    group lists it, the fallback when no row does. *)
Fixpoint lookup_extension (table : list rule) (e : str) : list string :=
  match table with
  | [] => fallback
  | (group, tags) :: rest =>
      if existsb (str_eqb e) (lits group) then tags
      else lookup_extension rest e
  end.

(** A code point that lowercasing leaves alone: it is no capital sigma and
    is its own full lowercase. *)
Definition fixed (c : N) : bool :=
  negb (c =? 0x3A3)%N && str_eqb (to_lower_full c) [c].

(** One of the two small sigmas, U+03C2 and U+03C3. *)
Definition small_sigma (c : N) : bool := (c =? 0x3C2)%N || (c =? 0x3C3)%N.

(** Suffixes of five code points at most, none of them a small sigma. *)
Definition short_plain (e : str) : bool :=
  (length e <=? 5)%nat && forallb (fun c => negb (small_sigma c)) e.

(** Two code points that are equal, or are both small sigmas: what the
    lowercase of one code point can be in two different surroundings. *)
Definition sigma_variant (x y : N) : Prop :=
  x = y \/ (small_sigma x = true /\ small_sigma y = true).

(** The instance that [__init__] leaves behind. *)
Definition constructed : ModelManager := {|
  current_model := Bound None;
  semantic_model := Bound None;
  pii_model := Bound None;
  is_loaded := Bound true
|}.

(** What construction prints. *)
Definition banner (init_quick : bool) : list string :=
  if init_quick then []
  else ["✅ ModelManager initialized (lightweight mode - no heavy models)"].

(** What each call prints when it returns. *)
Definition transcript (c : call) : list string :=
  match c with
  | Load => ["✅ ModelManager ready (lightweight mode)"]
  | Cleanup => ["🧹 Cleaning up models..."; "✅ Cleanup complete"]
  | GetSemanticModel =>
      ["⚠️ Semantic search model disabled (memory optimization for 512MB limit)";
       "   Falling back to keyword-based search in backend"]
  | GetPiiModel =>
      ["⚠️ spaCy PII model disabled (memory optimization for 512MB limit)";
       "   Using regex-based PII detection instead"]
  end.

(** The number of [cleanup] calls in a history. *)
Fixpoint cleanups (calls : list call) : nat :=
  match calls with
  | [] => 0
  | Cleanup :: rest => S (cleanups rest)
  | _ :: rest => cleanups rest
  end.

End View.

Import Py Routes Manager Spec View.

(** * Properties of the request routes *)

Arguments to_lower_full : simpl never.
Arguments final_sigma : simpl never.

(** ** Equality and suffix tests on [str] *)

Lemma str_eqb_eq (a b : str) : str_eqb a b = true <-> a = b.
Proof.
  revert b. induction a as [| x a IH]; intros [| y b]; simpl;
    try (split; [discriminate | discriminate]); [tauto |].
  rewrite andb_true_iff, N.eqb_eq, IH. split.
  - now intros [-> ->].
  - intros E. injection E as -> ->. now split.
Qed.

Lemma str_eqb_refl (a : str) : str_eqb a a = true.
Proof. now apply str_eqb_eq. Qed.

Lemma endswith1_is_suffix (s suffix : str) :
  endswith1 s suffix = true <-> is_suffix suffix s.
Proof.
  induction s as [| c s IH].
  - change (endswith1 [] suffix) with (str_eqb [] suffix || false).
    rewrite orb_false_r, str_eqb_eq. split.
    + intros <-. now exists [].
    + intros [front E]. symmetry in E. apply app_eq_nil in E.
      symmetry. exact (proj2 E).
  - change (endswith1 (c :: s) suffix)
      with (str_eqb (c :: s) suffix || endswith1 s suffix).
    rewrite orb_true_iff, str_eqb_eq, IH. split.
    + intros [<- | [front ->]].
      * now exists [].
      * now exists (c :: front).
    + intros [[| c' front] E]; simpl in E.
      * now left.
      * right. injection E as _ ->. now exists front.
Qed.

Lemma endswith_group_matches (s : str) (group : list string) :
  endswith s (lits group) = true <-> group_matches s group.
Proof.
  unfold endswith, lits, group_matches. rewrite existsb_exists. split.
  - intros [x [Hin H]]. apply in_map_iff in Hin.
    destruct Hin as [suffix [<- Hin]].
    exists suffix. split; [exact Hin | now apply endswith1_is_suffix].
  - intros [suffix [Hin H]]. exists (lit suffix).
    split; [now apply in_map | now apply endswith1_is_suffix].
Qed.

Lemma endswith_no_match (s : str) (group : list string) :
  endswith s (lits group) = false <-> ~ group_matches s group.
Proof.
  rewrite <- endswith_group_matches.
  now destruct (endswith s (lits group)).
Qed.

(** ** The table read as data agrees with the relation *)

Lemma first_match_selects (table : list rule) (s : str) :
  selects s table (first_match table s).
Proof.
  induction table as [| [group tags] rest IH]; simpl.
  - constructor.
  - destruct (endswith s (lits group)) eqn:E.
    + apply selects_here. now apply endswith_group_matches.
    + apply selects_later; [now apply endswith_no_match | exact IH].
Qed.

Lemma selects_functional (s : str) (table : list rule)
    (out1 out2 : list string) :
  selects s table out1 -> selects s table out2 -> out1 = out2.
Proof.
  intros H1. revert out2.
  induction H1; intros out2 H2; inversion H2; subst;
    solve [reflexivity | contradiction | auto].
Qed.

Lemma selects_iff_first_match (s : str) (table : list rule)
    (out : list string) :
  selects s table out <-> out = first_match table s.
Proof.
  split.
  - intros H. exact (selects_functional _ _ _ _ H (first_match_selects _ _)).
  - intros ->. apply first_match_selects.
Qed.

(** A result of [first_match] is the fallback or one of the bundles. *)
Lemma first_match_bundle (table : list rule) (s : str) :
  first_match table s = fallback \/ In (first_match table s) (map snd table).
Proof.
  induction table as [| [group tags] rest IH]; simpl.
  - now left.
  - destruct (endswith s (lits group)).
    + right. now left.
    + destruct IH as [IH | IH]; [now left | right; now right].
Qed.

Lemma first_match_no_group (table : list rule) (s : str) :
  (forall group, In group (map fst table) -> ~ group_matches s group) ->
  first_match table s = fallback.
Proof.
  induction table as [| [group tags] rest IH]; simpl; intros H.
  - reflexivity.
  - destruct (endswith s (lits group)) eqn:E.
    + exfalso. apply (H group); [now left | now apply endswith_group_matches].
    + apply IH. intros g Hg. apply H. now right.
Qed.

(** ** The handler's conditional chain is the table *)

Lemma generate_tags_first_match {Request : Type}
    (request : GenerateTagsRequest) (app_request : Request) :
  generate_tags request app_request =
  Return [("tags", first_match suffix_table (lower (filename request)))].
Proof. reflexivity. Qed.

(** ** Lowercasing *)

(** The two small sigmas are their own lowercase. *)
Lemma small_sigma_fixed (c : N) : small_sigma c = true -> fixed c = true.
Proof.
  unfold small_sigma. intros H. apply orb_true_iff in H.
  destruct H as [H | H]; apply N.eqb_eq in H; subst c;
    vm_compute; reflexivity.
Qed.

(** Every lowercase that the tables give is its own lowercase. *)
Lemma simple_lower_fixed :
  forallb (fun e => fixed (snd e)) Unicode.simple_lower = true.
Proof. vm_compute. reflexivity. Qed.

Lemma special_lower_fixed :
  forallb (fun e => forallb fixed (snd e)) Unicode.special_lower = true.
Proof. vm_compute. reflexivity. Qed.

Lemma to_lower_full_fixed (c : N) :
  c <> 0x3A3%N -> forallb fixed (to_lower_full c) = true.
Proof.
  intros Hc. unfold to_lower_full.
  destruct (find (fun e => (fst e =? c)%N) Unicode.special_lower)
    as [e |] eqn:Es.
  - apply find_some in Es.
    exact (proj1 (forallb_forall _ _) special_lower_fixed e (proj1 Es)).
  - cbn [forallb]. rewrite andb_true_r. unfold to_lower.
    destruct (find (fun e => (fst e =? c)%N) Unicode.simple_lower)
      as [e |] eqn:El.
    + apply find_some in El.
      exact (proj1 (forallb_forall _ _) simple_lower_fixed e (proj1 El)).
    + unfold fixed, to_lower_full, to_lower. rewrite Es, El.
      apply N.eqb_neq in Hc. rewrite Hc.
      cbn [negb andb str_eqb]. now rewrite N.eqb_refl.
Qed.

(** Text that holds fixed code points only is its own lowercase, wherever
    it stands. *)
Lemma lower_from_fixed (s : str) :
  forallb fixed s = true -> forall before, lower_from before s = s.
Proof.
  induction s as [| c s IH]; cbn [forallb lower_from]; intros H before.
  - reflexivity.
  - apply andb_true_iff in H. destruct H as [Hc Hs].
    unfold fixed in Hc. apply andb_true_iff in Hc. destruct Hc as [H1 H2].
    apply negb_true_iff in H1. apply str_eqb_eq in H2.
    rewrite H1, H2, (IH Hs). reflexivity.
Qed.

(** Lowercased text holds fixed code points only. *)
Lemma lower_from_all_fixed (s before : str) :
  forallb fixed (lower_from before s) = true.
Proof.
  revert before. induction s as [| c s IH]; intros before;
    cbn [lower_from].
  - reflexivity.
  - rewrite forallb_app, IH, andb_true_r.
    destruct (N.eqb_spec c 0x3A3) as [_ | Hc].
    + cbn [forallb]. rewrite andb_true_r. apply small_sigma_fixed.
      now destruct (final_sigma before s).
    + now apply to_lower_full_fixed.
Qed.

Lemma lower_idempotent (s : str) : lower (lower s) = lower s.
Proof.
  unfold lower. apply lower_from_fixed. apply lower_from_all_fixed.
Qed.

(** Within ASCII, lowercasing is the arithmetic of [ascii_lower]. *)
Lemma ascii_code_points :
  forallb
    (fun c => negb (c =? 0x3A3)%N && str_eqb (to_lower_full c) [ascii_lower c])
    (map N.of_nat (seq 0 128)) = true.
Proof. vm_compute. reflexivity. Qed.

Lemma to_lower_full_ascii (c : N) :
  (c < 128)%N ->
  (c =? 0x3A3)%N = false /\ to_lower_full c = [ascii_lower c].
Proof.
  intros H.
  assert (Hin : In c (map N.of_nat (seq 0 128))).
  { apply in_map_iff. exists (N.to_nat c). split; [apply N2Nat.id |].
    apply in_seq. lia. }
  pose proof (proj1 (forallb_forall _ _) ascii_code_points c Hin) as P.
  cbv beta in P. apply andb_true_iff in P. destruct P as [P1 P2].
  split; [now apply negb_true_iff | now apply str_eqb_eq].
Qed.

Lemma lower_from_ascii (s : str) :
  is_ascii s -> forall before, lower_from before s = map ascii_lower s.
Proof.
  induction 1 as [| c s Hc Hs IH]; intros before; cbn [lower_from map].
  - reflexivity.
  - destruct (to_lower_full_ascii c Hc) as [E1 E2].
    rewrite E1, E2, IH. reflexivity.
Qed.

Lemma lower_ascii (s : str) : is_ascii s -> lower s = map ascii_lower s.
Proof. intros H. now apply lower_from_ascii. Qed.

(** ** The bundles of the table *)

(** No label twice: each [NoDup] step leaves disequalities of literals. *)
Ltac distinct_labels :=
  repeat constructor; simpl; intuition discriminate.

(** Every label is one of the literals of the vocabulary. *)
Ltac known_labels :=
  repeat constructor; simpl; tauto.

Lemma fallback_well_formed : well_formed_bundle fallback.
Proof.
  unfold well_formed_bundle, fallback, vocabulary.
  split; [now left | split; [distinct_labels | known_labels]].
Qed.

Lemma table_bundles_well_formed :
  Forall well_formed_bundle (map snd suffix_table).
Proof.
  unfold suffix_table, well_formed_bundle, vocabulary; simpl.
  repeat (apply Forall_cons || apply Forall_nil);
    (split; [simpl; auto | split; [distinct_labels | known_labels]]).
Qed.

Lemma first_match_well_formed (s : str) :
  well_formed_bundle (first_match suffix_table s).
Proof.
  destruct (first_match_bundle suffix_table s) as [-> | Hin].
  - exact fallback_well_formed.
  - exact (proj1 (Forall_forall _ _) table_bundles_well_formed _ Hin).
Qed.

(** Filenames that agree once lowercased get the same answer. *)
Lemma generate_tags_lowered_name {Request : Type}
    (request1 request2 : GenerateTagsRequest)
    (app_request1 app_request2 : Request) :
  lower (filename request1) = lower (filename request2) ->
  generate_tags request1 app_request1 = generate_tags request2 app_request2.
Proof.
  intros E. rewrite !generate_tags_first_match. now rewrite E.
Qed.

(** ** The handlers on the inputs the specification lists *)

Example lower_mixed_case : lower "Report.PDF" = "report.pdf".
Proof. vm_compute. reflexivity. Qed.

(** Lowercasing beyond ASCII: the KELVIN SIGN (U+212A) lowers to [k], so a
    name written [clip.M], U+212A, [V] is a video; a capital E with acute
    lowers to the small one; the capital dotted I lowers to two code
    points; a capital sigma lowers by its place in the word. *)
Example lower_beyond_ascii :
  lower (lit "clip.M" ++ [0x212A%N] ++ lit "V") = lit "clip.mkv" /\
  lower [0xC9%N] = [0xE9%N] /\
  lower [0x130%N] = [0x69%N; 0x307%N] /\
  lower (lit "A" ++ [0x3A3%N]) = lit "a" ++ [0x3C2%N] /\
  lower ([0x3A3%N] ++ lit "A") = [0x3C3%N] ++ lit "a".
Proof. vm_compute. repeat split. Qed.

Example generate_tags_kelvin_sign :
  generate_tags
    {| filename := lit "clip.M" ++ [0x212A%N] ++ lit "V";
       content_preview := None |}
    tt
  = Return [("tags", ["video"])].
Proof. vm_compute. reflexivity. Qed.

Example generate_tags_compound_extension :
  generate_tags {| filename := "archive.tar.gz"; content_preview := None |} tt
  = Return [("tags", ["archive"])].
Proof. vm_compute. reflexivity. Qed.

Example generate_tags_script :
  generate_tags {| filename := "script.py"; content_preview := None |} tt
  = Return [("tags", ["code"; "technical"])].
Proof. vm_compute. reflexivity. Qed.

(** [.docx] never reaches a later row: [.doc] does not end it, [.docx]
    does, both in the second row. *)
Example generate_tags_docx :
  generate_tags {| filename := "Minutes.DOCX"; content_preview := None |} tt
  = Return [("tags", ["document"; "word"])].
Proof. vm_compute. reflexivity. Qed.

(** No files, a threshold above 1 and a negative [top_k]. *)
Example semantic_search_odd_request :
  semantic_search
    {| query := ""; files := []; threshold := Some 1.5%float;
       top_k := Some (-1)%Z |} tt
  = Raise (HTTPException 503
      "Semantic search is disabled (memory optimization for 512MB limit). Using keyword search instead.").
Proof. reflexivity. Qed.

(** ** The claims on the routes *)

(** C1. [generate_tags] lowercases the filename and reads the table from
    its first row down: it returns exactly the bundle that first-match-wins
    selection over [suffix_table] assigns to the lowercased filename (the
    bundle of the first row one of whose suffixes ends it, whole and in the
    table's order, nothing added from later rows; ["other"] when no row
    matches), and that selection assigns no other list.  The lowercased
    filename is the one [str.lower] gives: for a filename within ASCII it
    is the filename with each capital [A]..[Z] replaced by its small
    letter and nothing else changed, and beyond ASCII it follows the
    Unicode tables, so that the name [clip.M], KELVIN SIGN (U+212A), [V],
    whose lowercase ends with [.mkv], is a video. *)
Theorem generate_tags_first_match_wins :
  forall (Request : Type) (request : GenerateTagsRequest)
         (app_request : Request),
    (exists tags,
       generate_tags request app_request = Return [("tags", tags)] /\
       (forall out,
          selects (lower (filename request)) suffix_table out <->
          out = tags) /\
       (is_ascii (filename request) ->
        lower (filename request) = map ascii_lower (filename request))) /\
    generate_tags
      {| filename := lit "clip.M" ++ [0x212A%N] ++ lit "V";
         content_preview := None |} app_request =
    Return [("tags", ["video"])].
Proof.
  intros Request request app_request. split.
  - exists (first_match suffix_table (lower (filename request))).
    split; [| split].
    + apply generate_tags_first_match.
    + intros out. apply selects_iff_first_match.
    + apply lower_ascii.
  - vm_compute. reflexivity.
Qed.

(** C1 at ["Report.PDF"]: the name is within ASCII, its lowercase ends
    with [.pdf], the first row is selected, and the answer is
    [["document"]]. *)
Lemma generate_tags_first_match_wins_witness :
  is_ascii "Report.PDF" /\
  generate_tags {| filename := "Report.PDF"; content_preview := None |} tt =
    Return [("tags", ["document"])].
Proof.
  assert (A : is_ascii "Report.PDF")
    by (repeat constructor).
  split; [exact A |].
  destruct (generate_tags_first_match_wins unit
              {| filename := "Report.PDF"; content_preview := None |} tt)
    as [[tags [E [Hsel Hlow]]] _].
  rewrite E. f_equal. f_equal. f_equal. symmetry. apply Hsel.
  rewrite (Hlow A).
  apply selects_here. exists ".pdf". split; [now left |].
  exists (lit "report"). reflexivity.
Defined.

(** C2. [semantic_search] raises the HTTP error with status 503 and the
    fixed detail text, whatever the query, the files (none included), the
    threshold (absent, in range or not) and [top_k] are; it yields nothing
    else. *)
Theorem semantic_search_always_unavailable :
  forall (Request : Type) (request : SearchRequest) (app_request : Request),
    semantic_search request app_request =
    Raise (HTTPException 503
      "Semantic search is disabled (memory optimization for 512MB limit). Using keyword search instead.").
Proof. intros. reflexivity. Qed.

(** C3. [generate_embedding] raises the HTTP error with status 503 and the
    fixed detail text for every text; it yields nothing else. *)
Theorem generate_embedding_always_unavailable :
  forall (Request : Type) (request : GenerateEmbeddingRequest)
         (app_request : Request),
    generate_embedding request app_request =
    Raise (HTTPException 503
      "Embedding generation is disabled (memory optimization for 512MB limit).").
Proof. intros. reflexivity. Qed.

(** C4. [generate_tags] returns for every filename, never raising, and the
    tag list it returns is not empty; when no suffix group of the table
    matches the lowercased filename, the list is exactly [["other"]]. *)
Theorem generate_tags_total :
  forall (Request : Type) (request : GenerateTagsRequest)
         (app_request : Request),
    exists tags,
      generate_tags request app_request = Return [("tags", tags)] /\
      tags <> [] /\
      ((forall group, In group (map fst suffix_table) ->
          ~ group_matches (lower (filename request)) group) ->
       tags = ["other"]).
Proof.
  intros Request request app_request.
  exists (first_match suffix_table (lower (filename request))).
  split; [apply generate_tags_first_match | split].
  - destruct (first_match_well_formed (lower (filename request)))
      as [[L | L] _];
      intros E; rewrite E in L; discriminate.
  - apply first_match_no_group.
Qed.

(** C4 at a filename without extension: no group matches ["notes"], so
    it gets [["other"]]. *)
Lemma generate_tags_total_witness :
  (forall group, In group (map fst suffix_table) ->
     ~ group_matches (lower "notes") group) /\
  generate_tags {| filename := "notes"; content_preview := None |} tt =
    Return [("tags", ["other"])].
Proof.
  assert (H : forall group, In group (map fst suffix_table) ->
                ~ group_matches (lower "notes") group).
  { intros group Hin. apply endswith_no_match.
    simpl in Hin.
    repeat (destruct Hin as [<- | Hin]; [vm_compute; reflexivity |]).
    contradiction. }
  split; [exact H |].
  destruct (generate_tags_total unit
              {| filename := "notes"; content_preview := None |} tt)
    as [tags [E [_ Hother]]].
  rewrite E. f_equal. f_equal. f_equal. apply Hother. exact H.
Defined.

(** The empty filename gets [["other"]] as well. *)
Example generate_tags_empty_filename :
  generate_tags {| filename := ""; content_preview := None |} tt =
  Return [("tags", ["other"])].
Proof. reflexivity. Qed.

(** C5. The filename's case does not matter: a request and the same
    request with its filename lowercased get the same answer; and
    ["report.PDF"] gets [["document"]].  This holds of capitals beyond
    ASCII too: the name [clip.M], KELVIN SIGN (U+212A), [V] gets the
    answer of [clip.mkv]. *)
Theorem generate_tags_case_insensitive :
  forall (Request : Type) (app_request : Request),
    (forall request : GenerateTagsRequest,
       generate_tags
         {| filename := lower (filename request);
            content_preview := content_preview request |} app_request =
       generate_tags request app_request) /\
    generate_tags {| filename := "report.PDF"; content_preview := None |}
      app_request =
    Return [("tags", ["document"])] /\
    generate_tags
      {| filename := lit "clip.M" ++ [0x212A%N] ++ lit "V";
         content_preview := None |} app_request =
    generate_tags {| filename := "clip.mkv"; content_preview := None |}
      app_request.
Proof.
  intros Request app_request. split; [| split].
  - intros request. apply generate_tags_lowered_name.
    apply lower_idempotent.
  - vm_compute. reflexivity.
  - vm_compute. reflexivity.
Qed.

(** C6. The answer of [generate_tags] depends on the filename alone: two
    requests with the same filename, whatever their content previews
    (present or absent, equal or not), get the same tag list, label for
    label. *)
Theorem generate_tags_ignores_content_preview :
  forall (Request : Type) (request1 request2 : GenerateTagsRequest)
         (app_request1 app_request2 : Request),
    filename request1 = filename request2 ->
    generate_tags request1 app_request1 =
    generate_tags request2 app_request2.
Proof.
  intros Request request1 request2 app_request1 app_request2 E.
  apply generate_tags_lowered_name. now rewrite E.
Qed.

Lemma generate_tags_ignores_content_preview_witness :
  generate_tags
    {| filename := "script.py"; content_preview := None |} tt =
  generate_tags
    {| filename := "script.py"; content_preview := Some (lit "import os") |} tt.
Proof.
  apply (generate_tags_ignores_content_preview unit
           {| filename := "script.py"; content_preview := None |}
           {| filename := "script.py"; content_preview := Some (lit "import os") |}
           tt tt).
  reflexivity.
Defined.

(** C10. The tag list of [generate_tags] has one label or two, holds no
    label twice, and every label is in the fixed vocabulary. *)
Theorem generate_tags_in_vocabulary :
  forall (Request : Type) (request : GenerateTagsRequest)
         (app_request : Request),
    exists tags,
      generate_tags request app_request = Return [("tags", tags)] /\
      (length tags = 1 \/ length tags = 2)%nat /\
      NoDup tags /\
      Forall (fun t => In t vocabulary) tags.
Proof.
  intros Request request app_request.
  exists (first_match suffix_table (lower (filename request))).
  split; [apply generate_tags_first_match |].
  apply first_match_well_formed.
Qed.
(** * Properties of the model manager *)

(** ** What each method does to the process *)

Ltac run_method :=
  cbv [cleanup _unload_all_models load get_semantic_model get_pii_model
       __init__ new perform bind ret getattr setattr delattr print
       gc_collect with_self is_not_None
       attr_slot attr_store attr_name
       self_current_model self_semantic_model self_pii_model self_is_loaded
       self stdout gc_collections
       current_model semantic_model pii_model is_loaded
       fst snd negb].

(** Construction binds the four attributes, whatever [init_quick] is. *)
Lemma new_returns (init_quick : bool) (p : Process) :
  exists p',
    new init_quick p = (Return tt, p') /\
    self p' =
      {| current_model := Bound None; semantic_model := Bound None;
         pii_model := Bound None; is_loaded := Bound true |} /\
    gc_collections p' = gc_collections p.
Proof.
  destruct p as [o out gc], init_quick; run_method; eexists; repeat split.
Qed.

(** [load] returns and rebinds [is_loaded] alone. *)
Lemma load_returns (p : Process) :
  exists p',
    load p = (Return tt, p') /\
    self p' =
      {| current_model := current_model (self p);
         semantic_model := semantic_model (self p);
         pii_model := pii_model (self p); is_loaded := Bound true |}.
Proof.
  destruct p as [o out gc]; run_method; eexists; repeat split.
Qed.

(** On an initialised instance [cleanup] returns, with the three
    references bound to [None] and [is_loaded] as it was. *)
Lemma cleanup_returns (p : Process) :
  initialised (self p) ->
  exists p',
    cleanup p = (Return tt, p') /\
    self p' =
      {| current_model := Bound None; semantic_model := Bound None;
         pii_model := Bound None; is_loaded := is_loaded (self p) |}.
Proof.
  destruct p as [[cm sm pm il] out gc]. intros [Hs Hp]. simpl in Hs, Hp.
  destruct sm as [| [m |]]; [contradiction | |];
    (destruct pm as [| [m' |]]; [contradiction | |]);
    run_method; eexists; repeat split.
Qed.

(** The accessors return [None] and print; the instance is not touched. *)
Lemma get_semantic_model_returns (p : Process) :
  exists p',
    get_semantic_model p = (Return None, p') /\
    self p' = self p /\ gc_collections p' = gc_collections p.
Proof.
  destruct p as [o out gc]; run_method; eexists; repeat split.
Qed.

Lemma get_pii_model_returns (p : Process) :
  exists p',
    get_pii_model p = (Return None, p') /\
    self p' = self p /\ gc_collections p' = gc_collections p.
Proof.
  destruct p as [o out gc]; run_method; eexists; repeat split.
Qed.

(** ** The invariant of an instance in use *)

(** Every call returns on an initialised instance whose [is_loaded] is
    [True], and leaves such an instance behind. *)
Lemma perform_preserves (c : call) (p : Process) :
  initialised (self p) ->
  is_loaded (self p) = Bound true ->
  exists p',
    perform c p = (Return tt, p') /\
    initialised (self p') /\
    is_loaded (self p') = Bound true.
Proof.
  intros Hinit Hloaded. destruct c.
  - destruct (load_returns p) as [p' [E S]].
    exists p'. change (perform Load) with load.
    rewrite S. repeat split; trivial; apply Hinit.
  - destruct (cleanup_returns p Hinit) as [p' [E S]].
    exists p'. change (perform Cleanup) with cleanup.
    rewrite S. repeat split; trivial; simpl; discriminate.
  - destruct (get_semantic_model_returns p) as [p' [E [S _]]].
    exists p'. unfold perform, bind. rewrite E, S. auto.
  - destruct (get_pii_model_returns p) as [p' [E [S _]]].
    exists p'. unfold perform, bind. rewrite E, S. auto.
Qed.

Lemma history_preserves (calls : list call) (p : Process) :
  initialised (self p) ->
  is_loaded (self p) = Bound true ->
  exists p',
    history calls p = (Return tt, p') /\
    initialised (self p') /\
    is_loaded (self p') = Bound true.
Proof.
  revert p. induction calls as [| c rest IH]; intros p Hinit Hloaded.
  - exists p. auto.
  - destruct (perform_preserves c p Hinit Hloaded) as [p1 [E1 [I1 L1]]].
    destruct (IH p1 I1 L1) as [p2 [E2 [I2 L2]]].
    exists p2. simpl. unfold bind. rewrite E1. auto.
Qed.

(** [is_loaded] survives a call even when the call raises: no method
    unbinds it or binds it to [False]. *)
Lemma perform_keeps_is_loaded (c : call) (p : Process) :
  is_loaded (self p) = Bound true ->
  is_loaded (self (snd (perform c p))) = Bound true.
Proof.
  destruct p as [[cm sm pm il] out gc]. simpl. intros ->.
  destruct c; [reflexivity | | reflexivity | reflexivity].
  destruct sm as [| [m |]]; [reflexivity | |];
    (destruct pm as [| [m' |]]; reflexivity).
Qed.

(** An instance that was constructed and then used through its methods
    alone is initialised, with [is_loaded] bound to [True]; none of the
    calls has raised. *)
Lemma constructed_ready (init_quick : bool) (calls : list call)
    (p : Process) :
  exists p',
    (new init_quick ;; history calls) p = (Return tt, p') /\
    initialised (self p') /\
    is_loaded (self p') = Bound true.
Proof.
  destruct (new_returns init_quick p) as [p0 [E0 [S0 _]]].
  assert (I0 : initialised (self p0))
    by (rewrite S0; split; simpl; discriminate).
  assert (L0 : is_loaded (self p0) = Bound true) by now rewrite S0.
  destruct (history_preserves calls p0 I0 L0) as [p' [E [I L]]].
  exists p'. unfold bind. rewrite E0. auto.
Qed.

(** ** The claims on the model manager *)

(** C7. After construction, with either value of [init_quick], and after
    any sequence of [load], [cleanup], [get_semantic_model] and
    [get_pii_model] calls that follows it, every call has returned and
    [is_loaded] is [True]. *)
Theorem is_loaded_always_true :
  forall (init_quick : bool) (calls : list call) (p : Process),
    exists p',
      (new init_quick ;; history calls) p = (Return tt, p') /\
      is_loaded (self p') = Bound true.
Proof.
  intros init_quick calls p.
  destruct (constructed_ready init_quick calls p) as [p' [E [_ L]]].
  exists p'. now split.
Qed.

(** C8. In every state of the process, so after any history of calls,
    [get_semantic_model] and [get_pii_model] return [None] without raising,
    and the instance they leave is the instance they found. *)
Theorem accessors_return_None :
  forall p : Process,
    (exists p',
       get_semantic_model p = (Return None, p') /\ self p' = self p) /\
    (exists p',
       get_pii_model p = (Return None, p') /\ self p' = self p).
Proof.
  intros p. split.
  - destruct (get_semantic_model_returns p) as [p' [E [S _]]]. now exists p'.
  - destruct (get_pii_model_returns p) as [p' [E [S _]]]. now exists p'.
Qed.

(** C9. On an initialised instance, which by [constructed_ready] is every
    instance that was constructed and used through its methods, clean
    already or not, [cleanup] returns, and a second [cleanup] right after
    it returns too and leaves the instance as the first one left it:
    [current_model], [semantic_model] and [pii_model] are [None], and
    [is_loaded] is what it was. *)
Theorem cleanup_idempotent :
  forall p : Process,
    initialised (self p) ->
    exists p1 p2,
      cleanup p = (Return tt, p1) /\
      cleanup p1 = (Return tt, p2) /\
      self p2 = self p1 /\
      current_model (self p1) = Bound None /\
      semantic_model (self p1) = Bound None /\
      pii_model (self p1) = Bound None /\
      is_loaded (self p1) = is_loaded (self p).
Proof.
  intros p Hinit.
  destruct (cleanup_returns p Hinit) as [p1 [E1 S1]].
  assert (I1 : initialised (self p1))
    by (rewrite S1; split; simpl; discriminate).
  destruct (cleanup_returns p1 I1) as [p2 [E2 S2]].
  exists p1, p2. rewrite S2, S1. simpl. now repeat split.
Qed.

(** C9 on a freshly constructed, already clean instance, and on one that
    holds two models. *)
Lemma cleanup_idempotent_witness :
  let clean :=
    {| self :=
         {| current_model := Bound None; semantic_model := Bound None;
            pii_model := Bound None; is_loaded := Bound true |};
       stdout := []; gc_collections := 0 |} in
  let busy :=
    {| self :=
         {| current_model := Bound (Some "semantic_search");
            semantic_model := Bound (Some (ObjectRef 1));
            pii_model := Bound (Some (ObjectRef 2));
            is_loaded := Bound true |};
       stdout := []; gc_collections := 0 |} in
  (initialised (self clean) /\
   exists p1 p2,
     cleanup clean = (Return tt, p1) /\
     cleanup p1 = (Return tt, p2) /\
     self p2 = self p1 /\
     current_model (self p1) = Bound None /\
     semantic_model (self p1) = Bound None /\
     pii_model (self p1) = Bound None /\
     is_loaded (self p1) = is_loaded (self clean)) /\
  (initialised (self busy) /\
   exists p1 p2,
     cleanup busy = (Return tt, p1) /\
     cleanup p1 = (Return tt, p2) /\
     self p2 = self p1 /\
     current_model (self p1) = Bound None /\
     semantic_model (self p1) = Bound None /\
     pii_model (self p1) = Bound None /\
     is_loaded (self p1) = is_loaded (self busy)).
Proof.
  intros clean busy.
  assert (Hc : initialised (self clean)) by (split; simpl; discriminate).
  assert (Hb : initialised (self busy)) by (split; simpl; discriminate).
  split; split; trivial.
  - exact (cleanup_idempotent clean Hc).
  - exact (cleanup_idempotent busy Hb).
Defined.


(** * Further properties of the tagging route *)

(** ** Suffix tests are tests on the extension *)

Lemma endswith1_has_dot (s suffix : str) :
  endswith1 s suffix = true -> has_dot suffix = true -> has_dot s = true.
Proof.
  induction s as [| c s IH]; intros E D.
  - change (endswith1 [] suffix) with (str_eqb [] suffix || false) in E.
    rewrite orb_false_r, str_eqb_eq in E. now subst suffix.
  - change (endswith1 (c :: s) suffix)
      with (str_eqb (c :: s) suffix || endswith1 s suffix) in E.
    apply orb_true_iff in E. destruct E as [E | E].
    + apply str_eqb_eq in E. now subst suffix.
    + cbn [has_dot]. rewrite (IH E D). apply orb_true_r.
Qed.

Lemma dotted_has_dot (suffix : str) :
  dotted suffix = true -> has_dot suffix = true.
Proof.
  destruct suffix as [| c rest]; cbn [dotted has_dot]; [discriminate |].
  intros D. apply andb_true_iff in D. now rewrite (proj1 D).
Qed.

(** A dotted suffix ends [s] exactly when it is the extension of [s]. *)
Lemma endswith1_extension (s suffix : str) :
  dotted suffix = true ->
  endswith1 s suffix = str_eqb (extension s) suffix.
Proof.
  intros D. pose proof (dotted_has_dot _ D) as HD.
  induction s as [| c s IH].
  - destruct suffix; [discriminate D | reflexivity].
  - change (endswith1 (c :: s) suffix)
      with (str_eqb (c :: s) suffix || endswith1 s suffix).
    change (extension (c :: s))
      with (if has_dot s then extension s
            else if (c =? 46)%N then c :: s else []).
    destruct (has_dot s) eqn:Hs.
    + rewrite IH.
      destruct (str_eqb (c :: s) suffix) eqn:E; [| reflexivity].
      apply str_eqb_eq in E. subst suffix.
      cbn [dotted] in D. rewrite Hs in D.
      rewrite andb_false_r in D. discriminate D.
    + destruct (endswith1 s suffix) eqn:E.
      * rewrite (endswith1_has_dot _ _ E HD) in Hs. discriminate Hs.
      * rewrite orb_false_r.
        destruct (N.eqb_spec c 46) as [-> | Hc]; [reflexivity |].
        destruct suffix as [| c' rest]; [discriminate D |].
        cbn [dotted] in D. apply andb_true_iff in D. destruct D as [D _].
        apply N.eqb_eq in D. subst c'.
        cbn [str_eqb]. apply N.eqb_neq in Hc. now rewrite Hc.
Qed.

Lemma endswith_extension (s : str) (group : list str) :
  forallb dotted group = true ->
  endswith s group = existsb (str_eqb (extension s)) group.
Proof.
  unfold endswith.
  induction group as [| suffix group IH]; cbn [forallb existsb]; intros D.
  - reflexivity.
  - apply andb_true_iff in D. destruct D as [D1 D2].
    now rewrite (endswith1_extension _ _ D1), (IH D2).
Qed.

Lemma first_match_lookup (table : list rule) (s : str) :
  forallb (fun r => forallb dotted (lits (fst r))) table = true ->
  first_match table s = lookup_extension table (extension s).
Proof.
  induction table as [| [group tags] rest IH];
    cbn [forallb first_match lookup_extension fst]; intros D.
  - reflexivity.
  - apply andb_true_iff in D. destruct D as [D1 D2].
    now rewrite (endswith_extension _ _ D1), (IH D2).
Qed.

(** Every suffix of the table is a full stop followed by text without
    one. *)
Lemma suffix_table_dotted :
  forallb (fun r => forallb dotted (lits (fst r))) suffix_table = true.
Proof. reflexivity. Qed.

(** No lowercase holds a full stop, the full stop's own apart. *)
Lemma simple_lower_no_dot :
  forallb (fun e => negb (fst e =? 46)%N && negb (snd e =? 46)%N)
    Unicode.simple_lower = true.
Proof. vm_compute. reflexivity. Qed.

Lemma special_lower_no_dot :
  forallb (fun e => negb (fst e =? 46)%N && negb (has_dot (snd e)))
    Unicode.special_lower = true.
Proof. vm_compute. reflexivity. Qed.

Lemma has_dot_to_lower_full (c : N) :
  has_dot (to_lower_full c) = (c =? 46)%N.
Proof.
  unfold to_lower_full.
  destruct (find (fun e => (fst e =? c)%N) Unicode.special_lower)
    as [e |] eqn:Es.
  - apply find_some in Es. destruct Es as [Hin Hk].
    pose proof (proj1 (forallb_forall _ _) special_lower_no_dot e Hin) as P.
    destruct e as [k l]. cbn [fst snd] in *.
    apply N.eqb_eq in Hk. subst c.
    apply andb_true_iff in P. destruct P as [P1 P2].
    apply negb_true_iff in P1, P2. now rewrite P1, P2.
  - cbn [has_dot]. rewrite orb_false_r. unfold to_lower.
    destruct (find (fun e => (fst e =? c)%N) Unicode.simple_lower)
      as [e |] eqn:El; [| reflexivity].
    apply find_some in El. destruct El as [Hin Hk].
    pose proof (proj1 (forallb_forall _ _) simple_lower_no_dot e Hin) as P.
    destruct e as [k d]. cbn [fst snd] in *.
    apply N.eqb_eq in Hk. subst c.
    apply andb_true_iff in P. destruct P as [P1 P2].
    apply negb_true_iff in P1, P2. now rewrite P1, P2.
Qed.

Lemma has_dot_app (a b : str) : has_dot (a ++ b) = has_dot a || has_dot b.
Proof.
  induction a as [| c a IH]; cbn [app has_dot]; [reflexivity |].
  now rewrite IH, orb_assoc.
Qed.

Lemma has_dot_lower_from (s before : str) :
  has_dot (lower_from before s) = has_dot s.
Proof.
  revert before. induction s as [| c s IH]; intros before;
    cbn [lower_from has_dot]; [reflexivity |].
  rewrite has_dot_app, IH. f_equal.
  destruct (N.eqb_spec c 0x3A3) as [-> | _].
  - now destruct (final_sigma before s).
  - apply has_dot_to_lower_full.
Qed.

Lemma lower_has_dot (s : str) : has_dot (lower s) = has_dot s.
Proof. apply has_dot_lower_from. Qed.

Lemma extension_no_dot (s : str) : has_dot s = false -> extension s = [].
Proof.
  induction s as [| c s IH]; cbn [has_dot extension]; intros H;
    [reflexivity |].
  apply orb_false_iff in H. destruct H as [Hc Hs].
  now rewrite Hs, Hc.
Qed.

(** ** Rows of the table never compete *)

(** Looking up a suffix of a row gives that row's bundle, wherever the row
    stands. *)
Lemma suffix_table_lookup_row (group tags : list string) (e : string) :
  In (group, tags) suffix_table -> In e group ->
  lookup_extension suffix_table (lit e) = tags.
Proof.
  assert (H : Forall
                (fun r => Forall
                   (fun e => lookup_extension suffix_table (lit e) = snd r)
                   (fst r))
                suffix_table)
    by (repeat constructor).
  intros Hrow He.
  exact (proj1 (Forall_forall _ _)
           (proj1 (Forall_forall _ _) H _ Hrow) _ He).
Qed.

Lemma suffix_table_row_dotted (group tags : list string) (e : string) :
  In (group, tags) suffix_table -> In e group -> dotted (lit e) = true.
Proof.
  intros Hrow He.
  pose proof (proj1 (forallb_forall _ _) suffix_table_dotted _ Hrow) as H.
  apply (proj1 (forallb_forall _ _) H). now apply in_map.
Qed.

(** A row whose group matches a name gives the name its bundle. *)
Lemma first_match_matching_row (group tags : list string) (s : str) :
  In (group, tags) suffix_table -> group_matches s group ->
  first_match suffix_table s = tags.
Proof.
  intros Hrow [suffix [Hin Hsuf]].
  rewrite (first_match_lookup _ _ suffix_table_dotted).
  apply endswith1_is_suffix in Hsuf.
  rewrite (endswith1_extension _ _ (suffix_table_row_dotted _ _ _ Hrow Hin))
    in Hsuf.
  apply str_eqb_eq in Hsuf. rewrite Hsuf.
  now apply (suffix_table_lookup_row group).
Qed.

Lemma suffix_table_never_fallback (group tags : list string) :
  In (group, tags) suffix_table -> tags <> fallback.
Proof.
  assert (H : Forall (fun r => snd r <> fallback) suffix_table)
    by (repeat constructor; discriminate).
  intros Hrow. exact (proj1 (Forall_forall _ _) H _ Hrow).
Qed.

(** ** What the tagging route does with a filename *)

(** X1. No row of the table is shadowed by an earlier one: whenever a
    suffix of some row, first or not, ends the lowercased filename,
    [generate_tags] returns that row's tags. *)
Theorem generate_tags_any_matching_row :
  forall (Request : Type) (request : GenerateTagsRequest)
         (app_request : Request) (group tags : list string),
    In (group, tags) suffix_table ->
    group_matches (lower (filename request)) group ->
    generate_tags request app_request = Return [("tags", tags)].
Proof.
  intros Request request app_request group tags Hrow Hmatch.
  rewrite generate_tags_first_match.
  now rewrite (first_match_matching_row group tags).
Qed.

(** X1 on the eighth row, with its last suffix and an upper-case name. *)
Lemma generate_tags_any_matching_row_witness :
  generate_tags
    {| filename := "Backup.TAR.GZ"; content_preview := None |} tt =
  Return [("tags", ["archive"])].
Proof.
  apply (generate_tags_any_matching_row unit
           {| filename := "Backup.TAR.GZ"; content_preview := None |} tt
           [".zip"; ".rar"; ".7z"; ".tar"; ".gz"] ["archive"]).
  - simpl. tauto.
  - exists ".gz". split; [simpl; tauto |].
    exists (lit "backup.tar"). vm_compute. reflexivity.
Defined.

(** X1 on the sixth row, reached through a KELVIN SIGN (U+212A), which
    lowers to [k]. *)
Example generate_tags_any_matching_row_kelvin :
  group_matches (lower (lit "clip.M" ++ [0x212A%N] ++ lit "V"))
    [".mp4"; ".avi"; ".mov"; ".mkv"].
Proof.
  exists ".mkv". split; [simpl; tauto |].
  exists (lit "clip"). vm_compute. reflexivity.
Qed.

(** X4. [["other"]] is the answer of the fallback alone: [generate_tags]
    returns it exactly when no suffix group of the table matches the
    lowercased filename. *)
Theorem generate_tags_other_iff_no_match :
  forall (Request : Type) (request : GenerateTagsRequest)
         (app_request : Request),
    generate_tags request app_request = Return [("tags", ["other"])] <->
    (forall group, In group (map fst suffix_table) ->
       ~ group_matches (lower (filename request)) group).
Proof.
  intros Request request app_request.
  rewrite generate_tags_first_match. split.
  - intros E group Hin Hmatch.
    apply in_map_iff in Hin. destruct Hin as [[g tags] [<- Hrow]].
    simpl in Hmatch.
    rewrite (first_match_matching_row g tags _ Hrow Hmatch) in E.
    apply (suffix_table_never_fallback g tags Hrow).
    now injection E.
  - intros H. now rewrite (first_match_no_group _ _ H).
Qed.

(** X5. [generate_tags] is a lookup by extension: it takes the text of the
    lowercased filename from its last full stop on and returns the bundle
    of the row that lists exactly that text, [["other"]] when none does. *)
Theorem generate_tags_by_extension :
  forall (Request : Type) (request : GenerateTagsRequest)
         (app_request : Request),
    generate_tags request app_request =
    Return
      [("tags",
        lookup_extension suffix_table
          (extension (lower (filename request))))].
Proof.
  intros Request request app_request.
  rewrite generate_tags_first_match.
  now rewrite (first_match_lookup _ _ suffix_table_dotted).
Qed.

(** X6. A filename without a full stop gets [["other"]], whatever else it
    holds. *)
Theorem generate_tags_without_dot :
  forall (Request : Type) (request : GenerateTagsRequest)
         (app_request : Request),
    has_dot (filename request) = false ->
    generate_tags request app_request = Return [("tags", ["other"])].
Proof.
  intros Request request app_request H.
  rewrite generate_tags_first_match.
  rewrite (first_match_lookup _ _ suffix_table_dotted).
  rewrite extension_no_dot; [reflexivity |].
  now rewrite lower_has_dot.
Qed.

(** X6 on a name that spells an extension without its full stop. *)
Lemma generate_tags_without_dot_witness :
  generate_tags {| filename := "summary_pdf"; content_preview := None |} tt =
  Return [("tags", ["other"])].
Proof.
  apply (generate_tags_without_dot unit
           {| filename := "summary_pdf"; content_preview := None |} tt).
  reflexivity.
Defined.

(** Only the last extension counts: a backup of a PDF is no document, and
    a name that is nothing but an extension is tagged by it. *)
Example generate_tags_last_extension_only :
  generate_tags {| filename := "report.pdf.bak"; content_preview := None |} tt
    = Return [("tags", ["other"])] /\
  generate_tags {| filename := ".json"; content_preview := None |} tt
    = Return [("tags", ["data"; "technical"])].
Proof. split; vm_compute; reflexivity. Qed.

(** ** The order of the rows *)

(** A lookup either finds a row that lists the extension, or finds that no
    row does. *)
Lemma lookup_extension_cases (table : list rule) (e : str) :
  (exists group tags,
     In (group, tags) table /\ In e (lits group) /\
     lookup_extension table e = tags) \/
  ((forall group tags, In (group, tags) table -> ~ In e (lits group)) /\
   lookup_extension table e = fallback).
Proof.
  induction table as [| [g t] rest IH]; cbn [lookup_extension].
  - right. split; [intros group tags [] | reflexivity].
  - destruct (existsb (str_eqb e) (lits g)) eqn:E.
    + left. exists g, t. split; [now left | split; [| reflexivity]].
      apply existsb_exists in E. destruct E as [x [Hx Ex]].
      apply str_eqb_eq in Ex. now subst x.
    + destruct IH as [[group [tags [Hrow [He El]]]] | [Hnone El]].
      * left. exists group, tags. split; [now right | now split].
      * right. split; [| exact El].
        intros group tags [Hhead | Hrest] He.
        -- injection Hhead as <- <-.
           assert (existsb (str_eqb e) (lits g) = true) as E'
             by (apply existsb_exists; exists e; split;
                 [exact He | apply str_eqb_refl]).
           rewrite E in E'. discriminate E'.
        -- exact (Hnone group tags Hrest He).
Qed.

(** Rows in another order answer every name alike. *)
Lemma first_match_permuted (table' : list rule) (s : str) :
  Permutation suffix_table table' ->
  first_match table' s = first_match suffix_table s.
Proof.
  intros P.
  assert (D' : forallb (fun r => forallb dotted (lits (fst r))) table'
               = true).
  { apply forallb_forall. intros r Hr.
    apply (proj1 (forallb_forall _ _) suffix_table_dotted).
    exact (Permutation_in r (Permutation_sym P) Hr). }
  rewrite (first_match_lookup _ _ D').
  rewrite (first_match_lookup _ _ suffix_table_dotted).
  set (e := extension s).
  destruct (lookup_extension_cases table' e)
    as [[group [tags [Hrow [He El]]]] | [Hnone El]]; rewrite El.
  - symmetry. apply in_map_iff in He. destruct He as [suffix [<- He]].
    apply (suffix_table_lookup_row group); [| exact He].
    exact (Permutation_in _ (Permutation_sym P) Hrow).
  - destruct (lookup_extension_cases suffix_table e)
      as [[group [tags [Hrow [He El']]]] | [_ El']].
    + exfalso. apply (Hnone group tags); [| exact He].
      exact (Permutation_in _ P Hrow).
    + now rewrite El'.
Qed.

(** X2. The order of the rows decides nothing: read first-match-wins over
    the rows of the table in any other order, every filename gets the tags
    that [generate_tags] returns. *)
Theorem generate_tags_row_order_irrelevant :
  forall (table' : list rule),
    Permutation suffix_table table' ->
    forall (Request : Type) (request : GenerateTagsRequest)
           (app_request : Request),
      generate_tags request app_request =
      Return [("tags", first_match table' (lower (filename request)))].
Proof.
  intros table' P Request request app_request.
  rewrite generate_tags_first_match.
  now rewrite (first_match_permuted _ _ P).
Qed.

(** X2 with the rows read from the last to the first. *)
Lemma generate_tags_row_order_irrelevant_witness :
  generate_tags {| filename := "Notes.DOCX"; content_preview := None |} tt =
  Return [("tags", first_match (rev suffix_table) (lower "Notes.DOCX"))].
Proof.
  exact (generate_tags_row_order_irrelevant (rev suffix_table)
           (Permutation_rev suffix_table) unit
           {| filename := "Notes.DOCX"; content_preview := None |} tt).
Defined.

(** The rows read backwards still make a video of the name with the
    KELVIN SIGN. *)
Example first_match_reversed_kelvin :
  first_match (rev suffix_table)
    (lower (lit "clip.M" ++ [0x212A%N] ++ lit "V")) = ["video"].
Proof. vm_compute. reflexivity. Qed.

(** ** Only the end of the filename is read *)

(** What comes before a piece of text can change its lowercase in one way
    only: which small sigma a capital sigma becomes. *)
Lemma lower_from_variant (s before1 before2 : str) :
  Forall2 sigma_variant (lower_from before1 s) (lower_from before2 s).
Proof.
  revert before1 before2.
  induction s as [| c s IH]; intros before1 before2; cbn [lower_from].
  - constructor.
  - apply Forall2_app; [| apply IH].
    destruct (c =? 0x3A3)%N.
    + constructor; [| constructor]. right.
      now destruct (final_sigma before1 s), (final_sigma before2 s).
    + induction (to_lower_full c) as [| d l IHl]; constructor;
        [now left | exact IHl].
Qed.

(** The lowercase of [front ++ s] ends with the lowercase of [s] as it
    stands behind [front]. *)
Lemma lower_from_app (front s before : str) :
  exists head : str,
    lower_from before (front ++ s) =
    head ++ lower_from (rev front ++ before) s.
Proof.
  revert before. induction front as [| c front IH]; intros before.
  - now exists [].
  - destruct (IH (c :: before)) as [head E].
    cbn [app lower_from rev]. rewrite E, <- !app_assoc.
    eexists. rewrite app_assoc. reflexivity.
Qed.

Lemma special_lower_nonempty :
  forallb (fun e => negb (length (snd e) =? 0)%nat) Unicode.special_lower
  = true.
Proof. vm_compute. reflexivity. Qed.

(** Lowercasing never shortens a text. *)
Lemma length_lower_from (s before : str) :
  length s <= length (lower_from before s).
Proof.
  revert before. induction s as [| c s IH]; intros before;
    cbn [lower_from length]; [lia |].
  rewrite length_app. specialize (IH (c :: before)).
  assert (1 <= length
            (if (c =? 0x3A3)%N
             then [if final_sigma before s then 0x3C2%N else 0x3C3%N]
             else to_lower_full c)); [| lia].
  destruct (c =? 0x3A3)%N; [cbn [length]; lia |].
  unfold to_lower_full.
  destruct (find (fun e => (fst e =? c)%N) Unicode.special_lower)
    as [e |] eqn:Es; [| cbn [length]; lia].
  apply find_some in Es.
  pose proof (proj1 (forallb_forall _ _) special_lower_nonempty e (proj1 Es))
    as P.
  cbv beta in P. apply negb_true_iff, Nat.eqb_neq in P. lia.
Qed.

Lemma str_eqb_variant (x y suffix : str) :
  Forall2 sigma_variant x y ->
  forallb (fun c => negb (small_sigma c)) suffix = true ->
  str_eqb x suffix = str_eqb y suffix.
Proof.
  intros V. revert suffix.
  induction V as [| a a' x y Ha V IH]; intros [| s0 suffix] F;
    cbn [str_eqb]; try reflexivity.
  cbn [forallb] in F. apply andb_true_iff in F. destruct F as [F0 F].
  rewrite (IH suffix F). f_equal.
  destruct Ha as [-> | [Sa Sa']]; [reflexivity |].
  apply negb_true_iff in F0.
  destruct (N.eqb_spec a s0) as [-> | _];
    [rewrite Sa in F0; discriminate F0 |].
  destruct (N.eqb_spec a' s0) as [-> | _];
    [rewrite Sa' in F0; discriminate F0 | reflexivity].
Qed.

Lemma endswith1_variant (x y suffix : str) :
  Forall2 sigma_variant x y ->
  forallb (fun c => negb (small_sigma c)) suffix = true ->
  endswith1 x suffix = endswith1 y suffix.
Proof.
  intros V F. induction V as [| a a' x y Ha V IH].
  - reflexivity.
  - change (endswith1 (a :: x) suffix)
      with (str_eqb (a :: x) suffix || endswith1 x suffix).
    change (endswith1 (a' :: y) suffix)
      with (str_eqb (a' :: y) suffix || endswith1 y suffix).
    rewrite IH.
    now rewrite (str_eqb_variant (a :: x) (a' :: y) suffix
                   (Forall2_cons _ _ Ha V) F).
Qed.

(** A suffix no longer than [s] that ends [front ++ s] ends [s]. *)
Lemma is_suffix_app_inv (front s suffix : str) :
  length suffix <= length s ->
  is_suffix suffix (front ++ s) -> is_suffix suffix s.
Proof.
  intros L [f E]. revert f E.
  induction front as [| c front IH]; intros f E; cbn [app] in E.
  - now exists f.
  - destruct f as [| c' f]; cbn [app] in E.
    + exfalso. rewrite <- E in L. cbn [length] in L.
      rewrite length_app in L. lia.
    + injection E as _ E. exact (IH f E).
Qed.

Lemma endswith1_app (front s suffix : str) :
  length suffix <= length s ->
  endswith1 (front ++ s) suffix = endswith1 s suffix.
Proof.
  intros L. apply eq_true_iff_eq. rewrite !endswith1_is_suffix. split.
  - now apply is_suffix_app_inv.
  - intros [f ->]. exists (front ++ f). now rewrite app_assoc.
Qed.

Lemma suffix_table_short_plain :
  forallb (fun r => forallb short_plain (lits (fst r))) suffix_table = true.
Proof. reflexivity. Qed.

Lemma endswith_front (head tail tail' : str) (group : list str) :
  Forall2 sigma_variant tail tail' ->
  5 <= length tail ->
  forallb short_plain group = true ->
  endswith (head ++ tail) group = endswith tail' group.
Proof.
  intros V L. unfold endswith.
  induction group as [| e group IH]; cbn [forallb existsb]; intros F.
  - reflexivity.
  - apply andb_true_iff in F. destruct F as [Fe F].
    unfold short_plain in Fe. apply andb_true_iff in Fe.
    destruct Fe as [Le Pe]. apply Nat.leb_le in Le.
    rewrite (IH F), endswith1_app by lia.
    now rewrite (endswith1_variant tail tail' e V Pe).
Qed.

Lemma first_match_front (table : list rule) (front s : str) :
  forallb (fun r => forallb short_plain (lits (fst r))) table = true ->
  5 <= length s ->
  first_match table (lower (front ++ s)) = first_match table (lower s).
Proof.
  intros F L. unfold lower.
  destruct (lower_from_app front s []) as [head E]. rewrite E.
  pose proof (lower_from_variant s (rev front ++ []) []) as V.
  pose proof (length_lower_from s (rev front ++ [])) as L'.
  induction table as [| [group tags] rest IH];
    cbn [first_match forallb fst] in *.
  - reflexivity.
  - apply andb_true_iff in F. destruct F as [Fg Fr].
    rewrite (IH Fr).
    now rewrite (endswith_front head _ _ (lits group) V) by (lia || exact Fg).
Qed.

(** X3. [generate_tags] reads the last five characters of the filename at
    most: put any text, a directory path say, in front of a filename of
    five characters or more, and the tags stay the same. *)
Theorem generate_tags_ignores_front :
  forall (Request : Type) (request : GenerateTagsRequest)
         (app_request : Request) (front : str),
    5 <= length (filename request) ->
    generate_tags
      {| filename := front ++ filename request;
         content_preview := content_preview request |} app_request =
    generate_tags request app_request.
Proof.
  intros Request request app_request front L.
  rewrite !generate_tags_first_match. cbn [filename].
  now rewrite (first_match_front _ _ _ suffix_table_short_plain L).
Qed.

Lemma generate_tags_ignores_front_witness :
  generate_tags
    {| filename := lit "/srv/uploads/2024/" ++ lit "Q3.xlsx";
       content_preview := None |} tt =
  generate_tags {| filename := "Q3.xlsx"; content_preview := None |} tt.
Proof.
  apply (generate_tags_ignores_front unit
           {| filename := "Q3.xlsx"; content_preview := None |} tt
           (lit "/srv/uploads/2024/")).
  cbn. lia.
Defined.

(** Five counts code points, and cannot be made four: in front of
    ["docx"], a full stop changes the answer; and so it does in front of
    [m], U+212A, [v], which is three code points long. *)
Example generate_tags_front_of_four :
  generate_tags {| filename := ".docx"; content_preview := None |} tt <>
  generate_tags {| filename := "docx"; content_preview := None |} tt /\
  generate_tags
    {| filename := lit ".m" ++ [0x212A%N] ++ lit "v";
       content_preview := None |} tt <>
  generate_tags
    {| filename := lit "m" ++ [0x212A%N] ++ lit "v";
       content_preview := None |} tt.
Proof. split; vm_compute; discriminate. Qed.

(** ** The tags tell the group *)

Lemma first_match_cases (table : list rule) (s : str) :
  (exists group tags,
     In (group, tags) table /\ group_matches s group /\
     first_match table s = tags) \/
  first_match table s = fallback.
Proof.
  induction table as [| [g t] rest IH]; cbn [first_match].
  - now right.
  - destruct (endswith s (lits g)) eqn:E.
    + left. exists g, t. split; [now left | split; [| reflexivity]].
      now apply endswith_group_matches.
    + destruct IH as [[group [tags [Hrow [Hm El]]]] | El].
      * left. exists group, tags. split; [now right | now split].
      * now right.
Qed.

Lemma first_match_same_groups (table : list rule) (s1 s2 : str) :
  (forall group, In group (map fst table) ->
     (group_matches s1 group <-> group_matches s2 group)) ->
  first_match table s1 = first_match table s2.
Proof.
  induction table as [| [g t] rest IH]; cbn [first_match map fst];
    intros H.
  - reflexivity.
  - assert (E : endswith s1 (lits g) = endswith s2 (lits g)).
    { apply eq_true_iff_eq. rewrite !endswith_group_matches.
      apply H. now left. }
    rewrite E, IH; [reflexivity |].
    intros group Hin. apply H. now right.
Qed.

(** No two rows of the table emit the same bundle. *)
Lemma suffix_table_bundle_injective (g g' tags : list string) :
  In (g, tags) suffix_table -> In (g', tags) suffix_table -> g = g'.
Proof.
  assert (H : Forall
                (fun r1 => Forall
                   (fun r2 => snd r1 = snd r2 -> fst r1 = fst r2)
                   suffix_table)
                suffix_table).
  { unfold suffix_table.
    repeat (apply Forall_cons || apply Forall_nil);
      simpl; intros E; first [reflexivity | discriminate E]. }
  intros H1 H2.
  exact (proj1 (Forall_forall _ _)
           (proj1 (Forall_forall _ _) H _ H1) _ H2 eq_refl).
Qed.

Lemma first_match_tells_group (s1 s2 : str) (group tags : list string) :
  first_match suffix_table s1 = first_match suffix_table s2 ->
  In (group, tags) suffix_table ->
  group_matches s1 group -> group_matches s2 group.
Proof.
  intros E Hrow Hm.
  rewrite (first_match_matching_row group tags s1 Hrow Hm) in E.
  destruct (first_match_cases suffix_table s2)
    as [[g' [t' [Hrow' [Hm' El]]]] | El]; rewrite El in E.
  - subst t'.
    now rewrite (suffix_table_bundle_injective group g' tags Hrow Hrow').
  - exfalso. exact (suffix_table_never_fallback group tags Hrow E).
Qed.

(** X7. The tags tell the suffix group: two filenames get the same answer
    from [generate_tags] exactly when the same groups of the table match
    them, lowercased. *)
Theorem generate_tags_same_iff_same_groups :
  forall (Request : Type) (request1 request2 : GenerateTagsRequest)
         (app_request1 app_request2 : Request),
    generate_tags request1 app_request1 =
    generate_tags request2 app_request2 <->
    (forall group, In group (map fst suffix_table) ->
       (group_matches (lower (filename request1)) group <->
        group_matches (lower (filename request2)) group)).
Proof.
  intros Request request1 request2 app_request1 app_request2.
  rewrite !generate_tags_first_match. split.
  - intros E group Hin.
    assert (E' : first_match suffix_table (lower (filename request1)) =
                 first_match suffix_table (lower (filename request2)))
      by now injection E.
    apply in_map_iff in Hin. destruct Hin as [[g tags] [<- Hrow]]. simpl.
    split.
    + now apply (first_match_tells_group _ _ g tags).
    + now apply (first_match_tells_group _ _ g tags).
  - intros H. now rewrite (first_match_same_groups _ _ _ H).
Qed.
(** * Further properties of the model manager *)

(** ** The whole effect of a constructed instance's calls *)

Lemma new_effect (init_quick : bool) (p : Process) :
  new init_quick p =
  (Return tt,
   {| self := constructed;
      stdout := stdout p ++ banner init_quick;
      gc_collections := gc_collections p |}).
Proof.
  destruct p as [o out gc], init_quick; run_method; simpl;
    now rewrite ?app_nil_r.
Qed.

Lemma perform_effect (c : call) (p : Process) :
  self p = constructed ->
  perform c p =
  (Return tt,
   {| self := constructed;
      stdout := stdout p ++ transcript c;
      gc_collections := gc_collections p + 2 * cleanups [c] |}).
Proof.
  destruct p as [o out gc]. simpl. intros ->.
  destruct c; run_method; simpl;
    rewrite <- ?app_assoc; simpl;
    repeat f_equal; lia.
Qed.

Lemma history_effect (calls : list call) (p : Process) :
  self p = constructed ->
  history calls p =
  (Return tt,
   {| self := constructed;
      stdout := stdout p ++ flat_map transcript calls;
      gc_collections := gc_collections p + 2 * cleanups calls |}).
Proof.
  revert p. induction calls as [| c rest IH]; intros p S.
  - destruct p as [o out gc]. simpl in *. subst o.
    unfold ret. now rewrite app_nil_r, Nat.add_0_r.
  - simpl history. unfold bind. rewrite (perform_effect c p S).
    rewrite IH by reflexivity. simpl self. simpl stdout.
    simpl gc_collections.
    rewrite <- app_assoc.
    f_equal; f_equal; try reflexivity.
    destruct c; simpl; lia.
Qed.

Lemma constructed_effect (init_quick : bool) (calls : list call)
    (p : Process) :
  (new init_quick ;; history calls) p =
  (Return tt,
   {| self := constructed;
      stdout := stdout p ++ banner init_quick ++ flat_map transcript calls;
      gc_collections := gc_collections p + 2 * cleanups calls |}).
Proof.
  unfold bind. rewrite new_effect, history_effect by reflexivity.
  simpl. now rewrite <- app_assoc.
Qed.

(** X8. The manager never holds a model and never names a current one:
    after construction and any sequence of calls, the instance is the one
    [__init__] built, with [current_model], [semantic_model] and
    [pii_model] bound to [None] and [is_loaded] to [True]. *)
Theorem instance_never_changes :
  forall (init_quick : bool) (calls : list call) (p : Process),
    exists p',
      (new init_quick ;; history calls) p = (Return tt, p') /\
      self p' = constructed.
Proof.
  intros init_quick calls p. rewrite constructed_effect.
  eexists. split; reflexivity.
Qed.

(** X9. What a constructed instance costs and prints depends on the calls
    alone: the collector is asked to run twice for every [cleanup] in the
    history and never otherwise, and the output is what construction
    prints followed by the lines of each call, in the order of the
    calls. *)
Theorem calls_decide_effects :
  forall (init_quick : bool) (calls : list call) (p : Process),
    exists p',
      (new init_quick ;; history calls) p = (Return tt, p') /\
      gc_collections p' = gc_collections p + 2 * cleanups calls /\
      stdout p' =
        stdout p ++ banner init_quick ++ flat_map transcript calls.
Proof.
  intros init_quick calls p. rewrite constructed_effect.
  eexists. split; [reflexivity | split; reflexivity].
Qed.

(** X10. [init_quick] silences one line and changes nothing else: built
    quick or not, an instance goes through any history to the same
    attributes and the same number of collections, and prints the same
    lines but for the line of construction. *)
Theorem init_quick_only_silences :
  forall (calls : list call) (p : Process),
    exists quick normal lines,
      (new true ;; history calls) p = (Return tt, quick) /\
      (new false ;; history calls) p = (Return tt, normal) /\
      self quick = self normal /\
      gc_collections quick = gc_collections normal /\
      stdout quick = stdout p ++ lines /\
      stdout normal =
        stdout p ++
        "✅ ModelManager initialized (lightweight mode - no heavy models)"
          :: lines.
Proof.
  intros calls p. rewrite !constructed_effect.
  do 2 eexists. exists (flat_map transcript calls).
  repeat split.
Qed.

(** ** When [cleanup] raises *)

(** X11. [cleanup] returns exactly on an initialised instance, after two
    collections.  On an instance that lacks [semantic_model] or
    [pii_model] it raises [AttributeError] for the first of the two that
    is missing: for [semantic_model] when that is unbound, whatever
    [pii_model] is, and for [pii_model] only when [semantic_model] is
    bound.  It raises after its first line and before any collection:
    [current_model] and [is_loaded] are as they were, and the line of
    completion is not printed. *)
Theorem cleanup_returns_or_raises :
  forall p : Process,
    (initialised (self p) /\
     exists p',
       cleanup p = (Return tt, p') /\
       gc_collections p' = 2 + gc_collections p) \/
    (~ initialised (self p) /\
     exists name p',
       cleanup p = (Raise (AttributeError name), p') /\
       ((semantic_model (self p) = Unbound /\ name = "semantic_model") \/
        (semantic_model (self p) <> Unbound /\
         pii_model (self p) = Unbound /\ name = "pii_model")) /\
       gc_collections p' = gc_collections p /\
       stdout p' = stdout p ++ ["🧹 Cleaning up models..."] /\
       current_model (self p') = current_model (self p) /\
       is_loaded (self p') = is_loaded (self p)).
Proof.
  intros [[cm sm pm il] out gc].
  destruct sm as [| [m |]].
  - right. split; [intros [H _]; now apply H |].
    run_method. do 2 eexists.
    split; [reflexivity | split; [left; split; reflexivity |]].
    repeat split.
  - destruct pm as [| [m' |]].
    + right. split; [intros [_ H]; now apply H |].
      run_method. do 2 eexists.
      split; [reflexivity | split; [right; repeat split; discriminate |]].
      repeat split.
    + left. split; [split; discriminate |].
      run_method. eexists. split; reflexivity.
    + left. split; [split; discriminate |].
      run_method. eexists. split; reflexivity.
  - destruct pm as [| [m' |]].
    + right. split; [intros [_ H]; now apply H |].
      run_method. do 2 eexists.
      split; [reflexivity | split; [right; repeat split; discriminate |]].
      repeat split.
    + left. split; [split; discriminate |].
      run_method. eexists. split; reflexivity.
    + left. split; [split; discriminate |].
      run_method. eexists. split; reflexivity.
Qed.

(** On an instance with no attribute at all, [cleanup] raises for
    [semantic_model], the attribute it reads first. *)
Example cleanup_on_blank_instance :
  fst (cleanup {| self := blank; stdout := []; gc_collections := 0 |}) =
  Raise (AttributeError "semantic_model").
Proof. reflexivity. Qed.

(** ** [load] and [cleanup] together *)

(** X12. [load] and [cleanup], in either order, bring every initialised
    instance to the state of a constructed one, whatever its attributes
    held before; the two orders cost the same two collections and differ
    only in the order of the printed lines. *)
Theorem load_cleanup_reset :
  forall p : Process,
    initialised (self p) ->
    exists p1 p2,
      (load ;; cleanup) p = (Return tt, p1) /\
      (cleanup ;; load) p = (Return tt, p2) /\
      self p1 = constructed /\
      self p2 = constructed /\
      gc_collections p1 = 2 + gc_collections p /\
      gc_collections p2 = 2 + gc_collections p /\
      stdout p1 = stdout p ++ transcript Load ++ transcript Cleanup /\
      stdout p2 = stdout p ++ transcript Cleanup ++ transcript Load.
Proof.
  intros [[cm sm pm il] out gc] [Hs Hp]. simpl in Hs, Hp.
  destruct sm as [| [m |]]; [contradiction | |];
    (destruct pm as [| [m' |]]; [contradiction | |]);
    run_method; simpl; do 2 eexists;
    rewrite <- ?app_assoc; simpl; repeat split.
Qed.

(** X12 on an instance that holds two models, names one as current and
    has [is_loaded] set to [False]. *)
Lemma load_cleanup_reset_witness :
  let p :=
    {| self :=
         {| current_model := Bound (Some "pii_detection");
            semantic_model := Bound (Some (ObjectRef 7));
            pii_model := Bound (Some (ObjectRef 8));
            is_loaded := Bound false |};
       stdout := []; gc_collections := 3 |} in
  exists p1 p2,
    (load ;; cleanup) p = (Return tt, p1) /\
    (cleanup ;; load) p = (Return tt, p2) /\
    self p1 = constructed /\
    self p2 = constructed /\
    gc_collections p1 = 2 + gc_collections p /\
    gc_collections p2 = 2 + gc_collections p /\
    stdout p1 = stdout p ++ transcript Load ++ transcript Cleanup /\
    stdout p2 = stdout p ++ transcript Cleanup ++ transcript Load.
Proof.
  intros p. apply (load_cleanup_reset p).
  split; simpl; discriminate.
Defined.
